(** * AI Skills extension: storage, skill-file format and tools

    A shallow embedding of [extensions/ai-skills/src/storage.ts], of the
    tools [use-skills], [set-skills-folder], [remove-skills-folder] and
    [create-skill], of the handlers of [manage-skills.tsx] that write the
    store and of [models.ts], followed by the properties proved of them.

    Conventions of the model.
    - A JavaScript string is a Rocq [string]; its characters are the bytes of
      the text.  White space and letter case are modelled on the ASCII range:
      [trim] removes tab, line feed, vertical tab, form feed, carriage return
      and space, and the case conversions map the letters A-Z and a-z only.
    - A JavaScript value produced by [JSON.parse] or [YAML.parse] is a
      [JSValue]; [JSON.stringify] and [JSON.parse] are modelled in full on
      these values (numbers as lexemes), and parsing what was serialized is
      proved to give the value back.
    - [LocalStorage] is a finite map from keys to strings.
    - The file system, the environment, the AI service and the [yaml]
      package are read through a [Host] record of functions; a call that
      throws returns [None].
    - An [async] function that reads the store returns an [option]: [None]
      stands for a stored value that does not have the TypeScript type the
      source asserts for it (the source does not check it), or for an
      exception that leaves the function.  Writes to the store do not
      fail. *)

From Stdlib Require Import String Ascii List Bool Arith Lia DecimalString.

From stdpp Require Import gmap strings list fin_maps.

Set Warnings "-register-all".

Local Open Scope string_scope.
Local Open Scope list_scope.

(** The double-quote character. *)
Definition dquote : ascii := ascii_of_nat 34.

(** [s] between double quotes. *)
Definition quoted (s : string) : string :=
  String dquote (s +:+ String dquote EmptyString).

(** ** JavaScript string primitives *)

Module JS.

Definition isWhiteSpace (c : ascii) : bool :=
  let n := nat_of_ascii c in
  Nat.eqb n 9 || Nat.eqb n 10 || Nat.eqb n 11 || Nat.eqb n 12
  || Nat.eqb n 13 || Nat.eqb n 32.

(** [String.prototype.trimStart] *)
Fixpoint trimStart (s : string) : string :=
  match s with
  | EmptyString => EmptyString
  | String c r => if isWhiteSpace c then trimStart r else s
  end.

(** [String.prototype.trimEnd] *)
Fixpoint trimEnd (s : string) : string :=
  match s with
  | EmptyString => EmptyString
  | String c r =>
      match trimEnd r with
      | EmptyString => if isWhiteSpace c then EmptyString else String c EmptyString
      | r' => String c r'
      end
  end.

(** [String.prototype.trim] *)
Definition trim (s : string) : string := trimStart (trimEnd s).

(** [s.startsWith(p)] *)
Definition startsWith (p s : string) : bool := String.prefix p s.

(** [s.indexOf(sub, from)], with [None] for -1 *)
Definition indexOf (sub : string) (from : nat) (s : string) : option nat :=
  String.index from sub s.

(** [s.substring(a, b)]: the arguments are swapped when [a > b] and
    clamped to the length by [String.substring]. *)
Definition substring (a b : nat) (s : string) : string :=
  String.substring (Nat.min a b) (Nat.max a b - Nat.min a b) s.

(** [s.substring(a)] *)
Fixpoint substringFrom (a : nat) (s : string) : string :=
  match a, s with
  | O, _ => s
  | S a', String _ r => substringFrom a' r
  | S _, EmptyString => EmptyString
  end.

Definition lowerChar (c : ascii) : ascii :=
  let n := nat_of_ascii c in
  if Nat.leb 65 n && Nat.leb n 90 then ascii_of_nat (n + 32) else c.

Definition upperChar (c : ascii) : ascii :=
  let n := nat_of_ascii c in
  if Nat.leb 97 n && Nat.leb n 122 then ascii_of_nat (n - 32) else c.

Fixpoint mapChars (f : ascii -> ascii) (s : string) : string :=
  match s with
  | EmptyString => EmptyString
  | String c r => String (f c) (mapChars f r)
  end.

Definition toLowerCase : string -> string := mapChars lowerChar.
Definition toUpperCase : string -> string := mapChars upperChar.

Definition isQuote (c : ascii) : bool :=
  Ascii.eqb c dquote || Ascii.eqb c "'".

Definition stripLeadingQuote (s : string) : string :=
  match s with
  | String c r => if isQuote c then r else s
  | EmptyString => EmptyString
  end.

Fixpoint stripTrailingQuote (s : string) : string :=
  match s with
  | EmptyString => EmptyString
  | String c EmptyString => if isQuote c then EmptyString else s
  | String c r => String c (stripTrailingQuote r)
  end.

(** [s.replace(/^[QUOTES]|[QUOTES]$/g, "")] where QUOTES are the double and
    the single quote: the global replace first drops a quote at index 0,
    then a quote that ends the string at a later index. *)
Definition stripQuotes (s : string) : string :=
  stripTrailingQuote (stripLeadingQuote s).

(** [arr.includes(x)] on an array of strings *)
Definition includes (x : string) (arr : list string) : bool :=
  existsb (String.eqb x) arr.

(** [arr.join(sep)] *)
Definition join (sep : string) (arr : list string) : string :=
  String.concat sep arr.

(** [String(n)] for a non-negative integer *)
Definition numberToString (n : nat) : string :=
  NilEmpty.string_of_uint (Nat.to_uint n).

(** [arr.map((x, index) => f(x, index))] *)
Fixpoint mapi_from {A B} (i : nat) (f : A -> nat -> B) (l : list A) : list B :=
  match l with
  | [] => []
  | x :: r => f x i :: mapi_from (S i) f r
  end.

Definition mapi {A B} (f : A -> nat -> B) (l : list A) : list B :=
  mapi_from 0 f l.

(** [Array.from(new Set(arr))]: the first occurrence of every element, in
    order of first appearance. *)
Fixpoint uniqueFrom (seen : list string) (arr : list string) : list string :=
  match arr with
  | [] => []
  | x :: r =>
      if includes x seen then uniqueFrom seen r
      else x :: uniqueFrom (x :: seen) r
  end.

Definition unique (arr : list string) : list string := uniqueFrom [] arr.

(** [s.split(sep)] for a one-character separator *)
Fixpoint splitChar (sep : ascii) (s : string) : list string :=
  match s with
  | EmptyString => [EmptyString]
  | String c r =>
      if Ascii.eqb c sep then EmptyString :: splitChar sep r
      else match splitChar sep r with
           | [] => [String c EmptyString]
           | w :: ws => String c w :: ws
           end
  end.

End JS.

(** ** JavaScript values and JSON *)

(** A plain JavaScript value as [JSON.parse] and [YAML.parse] build it.  A
    number keeps its lexeme (floating point is not modelled); an object is
    the list of its properties in insertion order. *)
Inductive JSValue : Type :=
| VNull
| VBool (b : bool)
| VNum (lexeme : string)
| VStr (s : string)
| VArr (items : list JSValue)
| VObj (fields : list (string * JSValue)).

(** [obj[key]]: the binding written last wins; [None] is [undefined]. *)
Fixpoint getField (key : string) (fields : list (string * JSValue)) : option JSValue :=
  match fields with
  | [] => None
  | (k, v) :: r =>
      match getField key r with
      | Some v' => Some v'
      | None => if String.eqb k key then Some v else None
      end
  end.

Module JSON.

Local Open Scope char_scope.

Definition chr (n : nat) : ascii := ascii_of_nat n.

Definition hexDigit (k : nat) : ascii :=
  if Nat.ltb k 10 then chr (48 + k) else chr (87 + k).

(** Escaping of one character by [JSON.stringify] (QuoteJSONString). *)
Definition escapeChar (c : ascii) : list ascii :=
  let n := nat_of_ascii c in
  if Nat.eqb n 34 then ["\"; dquote]
  else if Nat.eqb n 92 then ["\"; "\"]
  else if Nat.eqb n 8 then ["\"; "b"]
  else if Nat.eqb n 12 then ["\"; "f"]
  else if Nat.eqb n 10 then ["\"; "n"]
  else if Nat.eqb n 13 then ["\"; "r"]
  else if Nat.eqb n 9 then ["\"; "t"]
  else if Nat.ltb n 32 then ["\"; "u"; "0"; "0"; hexDigit (n / 16); hexDigit (n mod 16)]
  else [c].

Definition quote (s : string) : list ascii :=
  dquote :: flat_map escapeChar (list_ascii_of_string s) ++ [dquote].

Fixpoint sepBy (sep : ascii) (parts : list (list ascii)) : list ascii :=
  match parts with
  | [] => []
  | [p] => p
  | p :: ps => p ++ sep :: sepBy sep ps
  end.

(** The text [JSON.stringify(v)] produces (no indentation). *)
Fixpoint write (v : JSValue) : list ascii :=
  match v with
  | VNull => list_ascii_of_string "null"
  | VBool true => list_ascii_of_string "true"
  | VBool false => list_ascii_of_string "false"
  | VNum lexeme => list_ascii_of_string lexeme
  | VStr s => quote s
  | VArr items => "[" :: sepBy "," (map write items) ++ ["]"]
  | VObj fields =>
      "{" :: sepBy "," (map (fun kv => quote (fst kv) ++ ":" :: write (snd kv)) fields)
          ++ ["}"]
  end.

Definition stringify (v : JSValue) : string := string_of_list_ascii (write v).

(** *** Parsing *)

Definition isWs (c : ascii) : bool :=
  let n := nat_of_ascii c in
  Nat.eqb n 32 || Nat.eqb n 9 || Nat.eqb n 10 || Nat.eqb n 13.

Fixpoint skipWs (s : list ascii) : list ascii :=
  match s with
  | [] => []
  | c :: r => if isWs c then skipWs r else s
  end.

Fixpoint stripPrefix (p s : list ascii) : option (list ascii) :=
  match p, s with
  | [], _ => Some s
  | a :: p', b :: s' => if Ascii.eqb a b then stripPrefix p' s' else None
  | _ :: _, [] => None
  end.

Definition isDigit (c : ascii) : bool :=
  let n := nat_of_ascii c in Nat.leb 48 n && Nat.leb n 57.

Definition hexVal (c : ascii) : option N :=
  let n := nat_of_ascii c in
  if Nat.leb 48 n && Nat.leb n 57 then Some (N.of_nat (n - 48))
  else if Nat.leb 97 n && Nat.leb n 102 then Some (N.of_nat (n - 87))
  else if Nat.leb 65 n && Nat.leb n 70 then Some (N.of_nat (n - 55))
  else None.

Definition hex4 (a b c d : ascii) : option N :=
  match hexVal a, hexVal b, hexVal c, hexVal d with
  | Some x, Some y, Some z, Some w => Some (((x * 16 + y) * 16 + z) * 16 + w)%N
  | _, _, _, _ => None
  end.

(** The bytes of the character a [\uXXXX] escape denotes.  Surrogate code
    units (which only denote a character in pairs) are not modelled. *)
Definition codeUnitBytes (n : N) : option (list ascii) :=
  if (n <? 128)%N then Some [ascii_of_N n]
  else if (n <? 2048)%N then
    Some [ascii_of_N (192 + n / 64); ascii_of_N (128 + n mod 64)]
  else if ((55296 <=? n) && (n <? 57344))%N then None
  else Some [ascii_of_N (224 + n / 4096); ascii_of_N (128 + (n / 64) mod 64);
             ascii_of_N (128 + n mod 64)].

Definition unescape (e : ascii) : option ascii :=
  let n := nat_of_ascii e in
  if Nat.eqb n 34 then Some dquote
  else if Nat.eqb n 92 then Some "\"
  else if Nat.eqb n 47 then Some "/"
  else if Nat.eqb n 98 then Some (chr 8)
  else if Nat.eqb n 102 then Some (chr 12)
  else if Nat.eqb n 110 then Some (chr 10)
  else if Nat.eqb n 114 then Some (chr 13)
  else if Nat.eqb n 116 then Some (chr 9)
  else None.

(** The characters of a string literal after its opening quote, up to and
    including the closing quote; returns the string and the rest. *)
Fixpoint parseStringBody (s : list ascii) : option (list ascii * list ascii) :=
  match s with
  | [] => None
  | c :: r =>
      if Ascii.eqb c dquote then Some ([], r)
      else if Ascii.eqb c "\" then
        match r with
        | [] => None
        | e :: r1 =>
            if Ascii.eqb e "u" then
              match r1 with
              | h1 :: h2 :: h3 :: h4 :: r2 =>
                  match hex4 h1 h2 h3 h4 with
                  | Some n =>
                      match codeUnitBytes n, parseStringBody r2 with
                      | Some bs, Some (str, rest) => Some (bs ++ str, rest)
                      | _, _ => None
                      end
                  | None => None
                  end
              | _ => None
              end
            else
              match unescape e, parseStringBody r1 with
              | Some x, Some (str, rest) => Some (x :: str, rest)
              | _, _ => None
              end
        end
      else if Nat.ltb (nat_of_ascii c) 32 then None
      else
        match parseStringBody r with
        | Some (str, rest) => Some (c :: str, rest)
        | None => None
        end
  end.

Fixpoint spanDigits (s : list ascii) : list ascii * list ascii :=
  match s with
  | c :: r =>
      if isDigit c then let (ds, rest) := spanDigits r in (c :: ds, rest)
      else ([], s)
  | [] => ([], [])
  end.

(** The lexeme of a JSON number at the head of [s]. *)
Definition parseNumber (s : list ascii) : option (list ascii * list ascii) :=
  let (sign, s1) :=
    match s with
    | c :: r => if Ascii.eqb c "-" then ([c], r) else ([], s)
    | [] => ([], s)
    end in
  let (int, s2) := spanDigits s1 in
  match int with
  | [] => None
  | d :: ds =>
      if Ascii.eqb d "0" && negb (Nat.eqb (length ds) 0) then None
      else
        let fracPart :=
          match s2 with
          | c :: r =>
              if Ascii.eqb c "." then
                let (fs, r') := spanDigits r in
                match fs with [] => None | _ => Some (c :: fs, r') end
              else Some ([], s2)
          | [] => Some ([], s2)
          end in
        match fracPart with
        | None => None
        | Some (frac, s3) =>
            let expPart :=
              match s3 with
              | c :: r =>
                  if Ascii.eqb c "e" || Ascii.eqb c "E" then
                    let (sg, r1) :=
                      match r with
                      | c1 :: r' =>
                          if Ascii.eqb c1 "+" || Ascii.eqb c1 "-" then ([c1], r') else ([], r)
                      | [] => ([], r)
                      end in
                    let (es, r2) := spanDigits r1 in
                    match es with [] => None | _ => Some (c :: sg ++ es, r2) end
                  else Some ([], s3)
              | [] => Some ([], s3)
              end in
            match expPart with
            | None => None
            | Some (ex, s4) => Some (sign ++ int ++ frac ++ ex, s4)
            end
        end
  end.

Fixpoint parseValue (fuel : nat) (s : list ascii) {struct fuel}
  : option (JSValue * list ascii) :=
  match fuel with
  | O => None
  | S fuel' =>
      match skipWs s with
      | [] => None
      | c :: r =>
          if Ascii.eqb c dquote then
            match parseStringBody r with
            | Some (str, r') => Some (VStr (string_of_list_ascii str), r')
            | None => None
            end
          else if Ascii.eqb c "[" then
            match skipWs r with
            | [] => None
            | c' :: r' =>
                if Ascii.eqb c' "]" then Some (VArr [], r')
                else match parseElements fuel' r with
                     | Some (items, r'') => Some (VArr items, r'')
                     | None => None
                     end
            end
          else if Ascii.eqb c "{" then
            match skipWs r with
            | [] => None
            | c' :: r' =>
                if Ascii.eqb c' "}" then Some (VObj [], r')
                else match parseMembers fuel' r with
                     | Some (fields, r'') => Some (VObj fields, r'')
                     | None => None
                     end
            end
          else if Ascii.eqb c "t" then
            match stripPrefix (list_ascii_of_string "rue") r with
            | Some r' => Some (VBool true, r')
            | None => None
            end
          else if Ascii.eqb c "f" then
            match stripPrefix (list_ascii_of_string "alse") r with
            | Some r' => Some (VBool false, r')
            | None => None
            end
          else if Ascii.eqb c "n" then
            match stripPrefix (list_ascii_of_string "ull") r with
            | Some r' => Some (VNull, r')
            | None => None
            end
          else
            match parseNumber (c :: r) with
            | Some (lexeme, r') => Some (VNum (string_of_list_ascii lexeme), r')
            | None => None
            end
      end
  end
with parseElements (fuel : nat) (s : list ascii) {struct fuel}
  : option (list JSValue * list ascii) :=
  match fuel with
  | O => None
  | S fuel' =>
      match parseValue fuel' s with
      | None => None
      | Some (v, r) =>
          match skipWs r with
          | [] => None
          | c :: r' =>
              if Ascii.eqb c "," then
                match parseElements fuel' r' with
                | Some (vs, r'') => Some (v :: vs, r'')
                | None => None
                end
              else if Ascii.eqb c "]" then Some ([v], r')
              else None
          end
      end
  end
with parseMembers (fuel : nat) (s : list ascii) {struct fuel}
  : option (list (string * JSValue) * list ascii) :=
  match fuel with
  | O => None
  | S fuel' =>
      match skipWs s with
      | [] => None
      | c :: r =>
          if Ascii.eqb c dquote then
            match parseStringBody r with
            | None => None
            | Some (k, r1) =>
                match skipWs r1 with
                | [] => None
                | c1 :: r2 =>
                    if Ascii.eqb c1 ":" then
                      match parseValue fuel' r2 with
                      | None => None
                      | Some (v, r3) =>
                          match skipWs r3 with
                          | [] => None
                          | c3 :: r4 =>
                              if Ascii.eqb c3 "," then
                                match parseMembers fuel' r4 with
                                | Some (ms, r5) =>
                                    Some ((string_of_list_ascii k, v) :: ms, r5)
                                | None => None
                                end
                              else if Ascii.eqb c3 "}" then
                                Some ([(string_of_list_ascii k, v)], r4)
                              else None
                          end
                      end
                    else None
                end
            end
          else None
      end
  end.

(** [JSON.parse(text)]; [None] when it throws a SyntaxError. *)
Definition parse (text : string) : option JSValue :=
  let cs := list_ascii_of_string text in
  match parseValue (S (length cs)) cs with
  | Some (v, rest) =>
      match skipWs rest with
      | [] => Some v
      | _ :: _ => None
      end
  | None => None
  end.

End JSON.

(** *** Induction over nested values *)

Section JSValue_induction.
Variable P : JSValue -> Prop.
Hypothesis HNull : P VNull.
Hypothesis HBool : forall b, P (VBool b).
Hypothesis HNum : forall lexeme, P (VNum lexeme).
Hypothesis HStr : forall s, P (VStr s).
Hypothesis HArr : forall items, Forall P items -> P (VArr items).
Hypothesis HObj :
  forall fields, Forall (fun kv => P (snd kv)) fields -> P (VObj fields).

Fixpoint JSValue_nested_ind (v : JSValue) : P v :=
  match v with
  | VNull => HNull
  | VBool b => HBool b
  | VNum lexeme => HNum lexeme
  | VStr s => HStr s
  | VArr items =>
      HArr items
        ((fix go (l : list JSValue) : Forall P l :=
            match l with
            | [] => @List.Forall_nil _ P
            | x :: r => @List.Forall_cons _ P x r (JSValue_nested_ind x) (go r)
            end) items)
  | VObj fields =>
      HObj fields
        ((fix go (l : list (string * JSValue)) : Forall (fun kv => P (snd kv)) l :=
            match l with
            | [] => List.Forall_nil _
            | kv :: r =>
                @List.Forall_cons _ (fun kv => P (snd kv)) kv r
                  (JSValue_nested_ind (snd kv)) (go r)
            end) fields)
  end.
End JSValue_induction.

(** Values without numbers: everything the extension stores. *)
Fixpoint numberFree (v : JSValue) : bool :=
  match v with
  | VNum _ => false
  | VArr items => forallb numberFree items
  | VObj fields => forallb (fun kv => numberFree (snd kv)) fields
  | _ => true
  end.

(** Recursion depth the parser needs for a value. *)
Fixpoint cost (v : JSValue) : nat :=
  match v with
  | VArr items => S (list_sum (map (fun x => S (cost x)) items))
  | VObj fields => S (list_sum (map (fun kv => S (cost (snd kv))) fields))
  | _ => 1
  end.

(** What the round trip says of one value. *)
Definition parsesBack (v : JSValue) : Prop :=
  numberFree v = true ->
  forall fuel rest, cost v <= fuel ->
    JSON.parseValue fuel (JSON.write v ++ rest) = Some (v, rest).

(** ** Node's [path] module (POSIX flavour) *)

Module Path.

(** [normalizeString]: the segments that survive normalisation.  [stack]
    holds the segments kept so far, the last one first. *)
Fixpoint normalizeSegments (allowAboveRoot : bool) (stack segs : list string)
  : list string :=
  match segs with
  | [] => rev stack
  | seg :: rest =>
      if String.eqb seg "" || String.eqb seg "." then
        normalizeSegments allowAboveRoot stack rest
      else if String.eqb seg ".." then
        match stack with
        | top :: below =>
            if String.eqb top ".." then
              normalizeSegments allowAboveRoot
                (if allowAboveRoot then ".." :: stack else stack) rest
            else normalizeSegments allowAboveRoot below rest
        | [] =>
            normalizeSegments allowAboveRoot
              (if allowAboveRoot then [".."] else []) rest
        end
      else normalizeSegments allowAboveRoot (seg :: stack) rest
  end.

Fixpoint endsWithSlash (p : string) : bool :=
  match p with
  | EmptyString => false
  | String c EmptyString => Ascii.eqb c "/"
  | String _ r => endsWithSlash r
  end.

(** [path.normalize(p)] *)
Definition normalize (p : string) : string :=
  if String.eqb p "" then "."
  else
    let isAbsolute := JS.startsWith "/" p in
    let trailingSeparator := endsWithSlash p in
    let res := JS.join "/" (normalizeSegments (negb isAbsolute) [] (JS.splitChar "/" p)) in
    if String.eqb res "" then
      if isAbsolute then "/" else if trailingSeparator then "./" else "."
    else
      let res' := if trailingSeparator then res +:+ "/" else res in
      if isAbsolute then "/" +:+ res' else res'.

(** [path.join(...parts)] *)
Definition join (parts : list string) : string :=
  let joined := JS.join "/" (List.filter (fun a => negb (String.eqb a "")) parts) in
  if String.eqb joined "" then "." else normalize joined.

(** [path.sep] *)
Definition sep : ascii := "/"%char.

End Path.

(** ** Data model ([types.ts]) *)

(** YAML frontmatter metadata *)
Record SkillFrontmatter := {
  meta_name : string;
  meta_description : string;
}.

Record ClaudeSkill := {
  skill_name : string;            (* skill directory name *)
  skill_path : string;
  skill_metadata : SkillFrontmatter;
  skill_content : string;
  skill_supportingFiles : list string;
  skill_skillMdPath : string;
}.

Record SkillsFolder := {
  folder_path : string;
  folder_label : option string;
}.

Definition SKILLS_FOLDER_KEY : string := "skills-folder-paths".
Definition ENABLED_SKILLS_KEY : string := "enabled_skills".
Definition ROUTING_MODEL_KEY : string := "routing_model".

(** An entry of [fs.readdir(dir, { withFileTypes: true })]. *)
Record Dirent := {
  dirent_name : string;
  dirent_isDirectory : bool;
}.

(** What the extension reads from its host: the process environment, the
    file system, the AI service and the [yaml] package.  A call that throws
    (or a promise that rejects) is [None]. *)
Record Host := {
  env_HOME : option string;
  env_USERPROFILE : option string;
  fs_access : string -> bool;
  fs_readdir : string -> option (list Dirent);
  fs_readFile : string -> option string;
  fs_statIsFile : string -> option bool;
  fs_existsSync : string -> bool;
  fs_statSyncIsDirectory : string -> option bool;
  (** [AI.ask(prompt, { creativity: "none", model })] *)
  AI_ask : string -> string -> option string;
  YAML_parse : string -> option JSValue;
  YAML_stringify : JSValue -> string;
}.

(** [LocalStorage] of the host application. *)
Abbreviation Store := (gmap string string).

(** *** JavaScript dynamic checks used by the source *)

(** [!!v].  Of the numbers only the lexeme [0] is taken as falsy; a number
    fails the [typeof] test of the source in either case. *)
Definition truthy (v : JSValue) : bool :=
  match v with
  | VNull => false
  | VBool b => b
  | VNum lexeme => negb (String.eqb lexeme "0")
  | VStr s => negb (String.eqb s "")
  | VArr _ | VObj _ => true
  end.

(** [typeof v === "object"] *)
Definition typeofObject (v : JSValue) : bool :=
  match v with
  | VNull | VArr _ | VObj _ => true
  | _ => false
  end.

(** [(v as Record<string, unknown>)[key]] for a key that is not an array
    index or [length]; [None] is [undefined]. *)
Definition getProperty (key : string) (v : JSValue) : option JSValue :=
  match v with
  | VObj fields => getField key fields
  | _ => None
  end.

(** ** storage.ts *)

Record ParsedSkill := {
  parsed_metadata : SkillFrontmatter;
  parsed_content : string;
}.

Section Storage.

Variable host : Host.

(** Parse YAML frontmatter from SKILL.md content *)
Definition parseSkillMarkdown (content : string) : option ParsedSkill :=
  if negb (JS.startsWith "---" content) then None
  else
    match JS.indexOf "---" 3 content with
    | None => None
    | Some frontmatterEnd =>
        let frontmatterText := JS.trim (JS.substring 3 frontmatterEnd content) in
        let markdownContent := JS.trim (JS.substringFrom (frontmatterEnd + 3) content) in
        match YAML_parse host frontmatterText with
        | None => None
        | Some parsed =>
            if negb (truthy parsed) || negb (typeofObject parsed) then None
            else
              match getProperty "name" parsed, getProperty "description" parsed with
              | Some (VStr name), Some (VStr description) =>
                  Some {| parsed_metadata :=
                            {| meta_name := name; meta_description := description |};
                          parsed_content := markdownContent |}
              | _, _ => None
              end
        end
    end.

(** *** Stored folder list *)

Definition folderToJS (f : SkillsFolder) : JSValue :=
  VObj (("path", VStr (folder_path f))
        :: match folder_label f with
           | Some l => [("label", VStr l)]
           | None => []
           end).

(** A parsed array element read at the type [SkillsFolder]. *)
Definition folderOfJS (v : JSValue) : option SkillsFolder :=
  match v with
  | VObj fields =>
      match getField "path" fields with
      | Some (VStr p) =>
          match getField "label" fields with
          | None => Some {| folder_path := p; folder_label := None |}
          | Some (VStr l) => Some {| folder_path := p; folder_label := Some l |}
          | Some _ => None
          end
      | _ => None
      end
  | _ => None
  end.

(** A parsed array element read at the type [string]. *)
Definition stringOfJS (v : JSValue) : option string :=
  match v with
  | VStr s => Some s
  | _ => None
  end.

(** [process.env.HOME ?? process.env.USERPROFILE ?? ""] *)
Definition homeDir : string :=
  match env_HOME host with
  | Some h => h
  | None => match env_USERPROFILE host with
            | Some u => u
            | None => ""
            end
  end.

Definition defaultFolders : list SkillsFolder :=
  if negb (String.eqb homeDir "") then
    [{| folder_path := Path.join [homeDir; ".claude"; "skills"]; folder_label := None |}]
  else [].

(** Get all skills folders from preferences *)
Definition getSkillsFolders (st : Store) : option (list SkillsFolder) :=
  match st !! SKILLS_FOLDER_KEY with
  | Some storedPaths =>
      if negb (String.eqb storedPaths "") then
        match JSON.parse storedPaths with
        | Some (VArr parsed) => mapM folderOfJS parsed
        | Some _ => Some defaultFolders
        | None => Some [{| folder_path := storedPaths; folder_label := None |}]
        end
      else Some defaultFolders
  | None => Some defaultFolders
  end.

(** Get all skills folder paths (for backward compatibility) *)
Definition getSkillsFolderPaths (st : Store) : option (list string) :=
  folders ← getSkillsFolders st;
  Some (map folder_path folders).

(** Get the first skills folder path (for backward compatibility) *)
Definition getSkillsFolderPath (st : Store) : option string :=
  paths ← getSkillsFolderPaths st;
  match paths with
  | firstPath :: _ =>
      if negb (String.eqb firstPath "") then Some firstPath
      else if negb (String.eqb homeDir "") then
        Some (Path.join [homeDir; ".claude"; "skills"])
      else Some ""
  | [] =>
      if negb (String.eqb homeDir "") then
        Some (Path.join [homeDir; ".claude"; "skills"])
      else Some ""
  end.

Definition writeFolders (folders : list SkillsFolder) (st : Store) : Store :=
  <[SKILLS_FOLDER_KEY := JSON.stringify (VArr (map folderToJS folders))]> st.

Definition samePathIgnoringCase (a b : string) : bool :=
  String.eqb (JS.toLowerCase a) (JS.toLowerCase b).

(** Add a skills folder to the list *)
Definition addSkillsFolderPath (folderPath : string) (label : option string)
    (st : Store) : option Store :=
  folders ← getSkillsFolders st;
  if negb (existsb (fun f => samePathIgnoringCase (folder_path f) folderPath) folders)
  then
    Some (writeFolders
            (folders ++ [{| folder_path := folderPath; folder_label := label |}]) st)
  else Some st.

(** Remove a skills folder from the list *)
Definition removeSkillsFolderPath (folderPath : string) (st : Store) : option Store :=
  folders ← getSkillsFolders st;
  let filtered :=
    List.filter (fun f => negb (samePathIgnoringCase (folder_path f) folderPath)) folders in
  Some (writeFolders filtered st).

(** [folders.findIndex(pred)], with [None] for -1 *)
Fixpoint findIndex {A} (pred : A -> bool) (l : list A) : option nat :=
  match l with
  | [] => None
  | x :: r => if pred x then Some 0 else option_map S (findIndex pred r)
  end.

(** Update a skills folder's configuration *)
Definition updateSkillsFolderPath (oldPath newPath : string) (label : option string)
    (st : Store) : option (bool * Store) :=
  folders ← getSkillsFolders st;
  match findIndex (fun f => samePathIgnoringCase (folder_path f) oldPath) folders with
  | None => Some (false, st)
  | Some index =>
      Some (true,
            writeFolders
              (<[index := {| folder_path := newPath; folder_label := label |}]> folders) st)
  end.

(** Set the skills folder path (replaces all paths) *)
Definition setSkillsFolderPath (folderPath : string) (st : Store) : Store :=
  writeFolders [{| folder_path := folderPath; folder_label := None |}] st.

(** *** Enabled skills *)

(** Get all enabled skill names *)
Definition getEnabledSkills (st : Store) : option (list string) :=
  match st !! ENABLED_SKILLS_KEY with
  | Some enabled =>
      if negb (String.eqb enabled "") then
        match JSON.parse enabled with
        | Some (VArr parsed) => mapM stringOfJS parsed
        | Some _ => None
        | None => Some []
        end
      else Some []
  | None => Some []
  end.

Definition writeEnabled (names : list string) (st : Store) : Store :=
  <[ENABLED_SKILLS_KEY := JSON.stringify (VArr (map VStr names))]> st.

(** Check if a skill is enabled *)
Definition isSkillEnabled (skillName : string) (st : Store) : option bool :=
  enabled ← getEnabledSkills st;
  Some (JS.includes skillName enabled).

(** Enable a skill *)
Definition enableSkill (skillName : string) (st : Store) : option Store :=
  enabled ← getEnabledSkills st;
  if negb (JS.includes skillName enabled)
  then Some (writeEnabled (enabled ++ [skillName]) st)
  else Some st.

(** Disable a skill *)
Definition disableSkill (skillName : string) (st : Store) : option Store :=
  enabled ← getEnabledSkills st;
  let filtered := List.filter (fun name => negb (String.eqb name skillName)) enabled in
  Some (writeEnabled filtered st).

Definition setEnabledSkillNames (skillNames : list string) (st : Store) : Store :=
  writeEnabled (JS.unique skillNames) st.

(** *** Routing model *)

(** Get the user's preferred routing model; [None] if none is configured *)
Definition getRoutingModel (st : Store) : option string :=
  match st !! ROUTING_MODEL_KEY with
  | Some saved => if negb (String.eqb saved "") then Some saved else None
  | None => None
  end.

(** Set the user's preferred routing model *)
Definition setRoutingModel (model : string) (st : Store) : Store :=
  <[ROUTING_MODEL_KEY := model]> st.

(** Clear the routing model preference *)
Definition clearRoutingModel (st : Store) : Store :=
  delete ROUTING_MODEL_KEY st.

(** *** Skills on disk *)

(** A write the extension performs on the file system. *)
Inductive FsOp : Type :=
| Mkdir (dir : string)
| WriteFile (file content : string).

(** The body of the inner loop of [getAllSkills] for one directory entry:
    [Some None] when the entry is skipped ([continue]), [None] when a call
    throws out of the loop. *)
Definition loadSkill (skillsFolder : string) (entry : Dirent)
  : option (option ClaudeSkill) :=
  if negb (dirent_isDirectory entry) then Some None
  else
    let skillPath := Path.join [skillsFolder; dirent_name entry] in
    let skillMdPath := Path.join [skillPath; "SKILL.md"] in
    if negb (fs_access host skillMdPath) then Some None
    else
      content ← fs_readFile host skillMdPath;
      match parseSkillMarkdown content with
      | None => Some None
      | Some parsed =>
          if String.eqb (meta_name (parsed_metadata parsed)) ""
             || String.eqb (meta_description (parsed_metadata parsed)) ""
          then Some None
          else
            allFiles ← fs_readdir host skillPath;
            let supportingFiles :=
              List.filter
                (fun f =>
                   negb (String.eqb f "SKILL.md")
                   && match fs_statIsFile host (Path.join [skillPath; f]) with
                      | Some b => b
                      | None => false
                      end)
                (map dirent_name allFiles) in
            Some (Some {| skill_name := dirent_name entry;
                          skill_path := skillPath;
                          skill_metadata :=
                            {| meta_name := meta_name (parsed_metadata parsed);
                               meta_description := meta_description (parsed_metadata parsed) |};
                          skill_content := parsed_content parsed;
                          skill_supportingFiles := supportingFiles;
                          skill_skillMdPath := skillMdPath |})
      end.

(** The body of the outer loop of [getAllSkills] for one folder. *)
Definition loadFolder (skillsFolder : string) : option (list ClaudeSkill) :=
  if negb (fs_access host skillsFolder) then Some []
  else
    entries ← fs_readdir host skillsFolder;
    loaded ← mapM (loadSkill skillsFolder) entries;
    Some (omap id loaded).

(** Get all skills from all skills folders.  Any exception inside the
    [try] block is caught and gives the empty list. *)
Definition getAllSkills (st : Store) : option (list ClaudeSkill) :=
  skillsFolders ← getSkillsFolderPaths st;
  match mapM loadFolder skillsFolders with
  | Some perFolder => Some (concat perFolder)
  | None => Some []
  end.

Definition matchesName (name : string) (s : ClaudeSkill) : bool :=
  String.eqb (skill_name s) name || String.eqb (meta_name (skill_metadata s)) name.

(** Find a skill by name; [Some None] is [null]. *)
Definition findSkill (name : string) (st : Store) : option (option ClaudeSkill) :=
  skills ← getAllSkills st;
  Some (List.find (matchesName name) skills).

(** The text [createSkill] writes to SKILL.md. *)
Definition skillMarkdown (name description content : string) : string :=
  let frontmatter :=
    "---" +:+ String "010" ""
    +:+ JS.trimEnd (YAML_stringify host
                      (VObj [("name", VStr name); ("description", VStr description)]))
    +:+ String "010" "" +:+ "---" +:+ String "010" (String "010" "") in
  frontmatter +:+ content.

(** Create a new skill with SKILL.md.  Returns the skill, the store and the
    writes on the file system; [None] also when it throws for want of a
    skills folder. *)
Definition createSkill (name description content : string) (folderPath : option string)
    (st : Store) : option (ClaudeSkill * Store * list FsOp) :=
  skillsFolder ←
    match folderPath with
    | Some fp => if negb (String.eqb fp "") then Some fp else getSkillsFolderPath st
    | None => getSkillsFolderPath st
    end;
  if String.eqb skillsFolder "" then None
  else
    let skillPath := Path.join [skillsFolder; name] in
    let skillMdPath := Path.join [skillPath; "SKILL.md"] in
    st' ← enableSkill name st;
    Some ({| skill_name := name;
             skill_path := skillPath;
             skill_metadata := {| meta_name := name; meta_description := description |};
             skill_content := content;
             skill_supportingFiles := [];
             skill_skillMdPath := skillMdPath |},
          st',
          [Mkdir skillPath; WriteFile skillMdPath (skillMarkdown name description content)]).

(** The effect on [LocalStorage] of [updateSkill(name, { newName, ... })]
    (its lines up to the write of the enabled list); the renaming of the
    directory and the rewriting of SKILL.md that follow only touch the file
    system. *)
Definition updateSkill_store (name : string) (newName : option string) (st : Store)
  : option Store :=
  found ← findSkill name st;
  match found with
  | None => Some st
  | Some skill =>
      match newName with
      | Some newName' =>
          if negb (String.eqb newName' "") && negb (String.eqb newName' name) then
            enabledSkills ← getEnabledSkills st;
            if JS.includes name enabledSkills then
              let filtered :=
                List.filter (fun n => negb (String.eqb n name)) enabledSkills in
              Some (writeEnabled (filtered ++ [newName']) st)
            else Some st
          else Some st
      | None => Some st
      end
  end.

(** Get all enabled ClaudeSkill objects *)
Definition getEnabledSkillObjects (st : Store) : option (list ClaudeSkill) :=
  enabledNames ← getEnabledSkills st;
  allSkills ← getAllSkills st;
  Some (List.filter (fun skill => JS.includes (skill_name skill) enabledNames) allSkills).

End Storage.

(** ** Tools *)

Definition nl : string := String (ascii_of_nat 10) EmptyString.

(** *** tools/remove-skills-folder.ts *)

Module RemoveSkillsFolder.
Section Tool.

Variable host : Host.

Definition numbered (paths : list string) : string :=
  JS.join nl (JS.mapi (fun p i => "  " +:+ JS.numberToString (i + 1) +:+ ". " +:+ p) paths).

(** Remove a skills folder path.  The [try] block holds calls that only
    fail, in the model, on an ill-typed store: the text of its [catch]
    branch is not modelled. *)
Definition tool (folderPath : string) (st : Store) : option (string * Store) :=
  paths ← getSkillsFolderPaths host st;
  if negb (JS.includes folderPath paths) then
    Some ("❌ Folder path not found in configuration: " +:+ quoted folderPath
          +:+ nl +:+ nl +:+ "Use list-skills-folders to see all configured folders.",
          st)
  else if Nat.eqb (length paths) 1 then
    Some ("❌ Cannot remove the only skills folder." +:+ nl +:+ nl
          +:+ "You must have at least one skills folder configured. Add another folder first using set-skills-folder before removing this one.",
          st)
  else
    st' ← removeSkillsFolderPath host folderPath st;
    updatedPaths ← getSkillsFolderPaths host st';
    skills ← getAllSkills host st';
    Some ("✅ Removed skills folder from configuration: " +:+ folderPath
          +:+ nl +:+ nl +:+ "You now have " +:+ JS.numberToString (length updatedPaths)
          +:+ " skills folder(s) configured:" +:+ nl +:+ numbered updatedPaths
          +:+ nl +:+ nl +:+ "Found " +:+ JS.numberToString (length skills)
          +:+ " total Claude Code Skill(s) across remaining folders."
          +:+ nl +:+ nl
          +:+ "Note: The folder and its files were not deleted, only removed from the search path.",
          st').

End Tool.
End RemoveSkillsFolder.

(** *** tools/set-skills-folder.ts *)

Module SetSkillsFolder.
Section Tool.

Variable host : Host.

(** Validates that a path does not contain traversal sequences *)
Definition validatePathNoTraversal (userPath : string) : bool :=
  let parts := JS.splitChar Path.sep (Path.normalize userPath) in
  negb (existsb (fun part => String.eqb part "..") parts).

(** Add a skills folder path *)
Definition tool (folderPath : string) (st : Store) : option (string * Store) :=
  if negb (validatePathNoTraversal folderPath) then
    Some ("❌ Invalid path: " +:+ folderPath +:+ nl +:+ nl
          +:+ "Path contains traversal sequences (..) that are not allowed.", st)
  else if negb (fs_existsSync host folderPath) then
    Some ("❌ Path does not exist: " +:+ folderPath +:+ nl +:+ nl
          +:+ "Please provide a valid path to a folder containing your skills.", st)
  else
    isDirectory ← fs_statSyncIsDirectory host folderPath;
    if negb isDirectory then
      Some ("❌ Path is not a directory: " +:+ folderPath +:+ nl +:+ nl
            +:+ "Please provide a path to a folder, not a file.", st)
    else
      st1 ← addSkillsFolderPath host folderPath None st;
      allPaths ← getSkillsFolderPaths host st1;
      skills ← getAllSkills host st1;
      enabledSkillNames ← getEnabledSkills st1;
      let allSkillNames := map skill_name skills in
      let st2 := setEnabledSkillNames allSkillNames st1 in
      let newlyEnabledCount := length allSkillNames - length enabledSkillNames in
      Some ("✅ Added skills folder: " +:+ folderPath +:+ nl +:+ nl
            +:+ "You now have " +:+ JS.numberToString (length allPaths)
            +:+ " skills folder(s) configured:" +:+ nl
            +:+ RemoveSkillsFolder.numbered allPaths +:+ nl +:+ nl
            +:+ "Found " +:+ JS.numberToString (length skills)
            +:+ " total Claude Code Skill(s) across all folders." +:+ nl +:+ nl
            +:+ (if Nat.ltb 0 (length skills) then
                   "Skills: "
                   +:+ JS.join ", " (map (fun s => meta_name (skill_metadata s)) skills)
                 else "No skills found yet. Each skill should be a subdirectory with a SKILL.md file.")
            +:+ nl
            +:+ (if Nat.ltb 0 newlyEnabledCount then
                   nl +:+ "✅ " +:+ JS.numberToString newlyEnabledCount
                   +:+ " skill(s) auto-enabled from the new folder."
                 else "")
            +:+ nl +:+ nl +:+ "Claude will now use skills from all these locations.",
            st2).

End Tool.
End SetSkillsFolder.

(** *** tools/use-skills.ts *)

Module UseSkills.
Section Tool.

Variable host : Host.

(** A request sent to the AI service: the prompt and the routing model. *)
Definition AIRequest : Type := (string * string)%type.

(** Format a skill object into a readable response *)
Definition formatSkillResponse (skill : ClaudeSkill) : string :=
  "# Skill: " +:+ meta_name (skill_metadata skill) +:+ "

" +:+ meta_description (skill_metadata skill) +:+ "

## Instructions

" +:+ skill_content skill.

(** Format a no-match message with helpful guidance *)
Definition formatNoMatchMessage (skills : list ClaudeSkill) : string :=
  let skillsList :=
    JS.join nl
      (JS.mapi (fun skill index =>
                  JS.numberToString (index + 1) +:+ ". **"
                  +:+ meta_name (skill_metadata skill) +:+ "** - "
                  +:+ meta_description (skill_metadata skill)) skills) in
  "# General Response Required

No enabled skill matches this request. Use your general capabilities to help the user.

Do NOT use any of the following skills:
" +:+ skillsList +:+ "

If the user explicitly mentions a skill name, inform them it's not available.".

Definition routingPrompt (skills : list ClaudeSkill) (request : string) : string :=
  let skillsList :=
    JS.join nl
      (JS.mapi (fun skill index =>
                  JS.numberToString (index + 1) +:+ ". Name: "
                  +:+ meta_name (skill_metadata skill) +:+ nl
                  +:+ "   Description: " +:+ meta_description (skill_metadata skill))
         skills) in
  "You are a skill router. Select the best skill for the user's request.

User Request: " +:+ quoted request +:+ "

Available Skills:
" +:+ skillsList +:+ "

Selection rules:
1. Pick the skill whose purpose best matches what the user wants to accomplish
2. Consider the entire description, not just keywords
3. If multiple skills match, choose the most specific one
4. Only return " +:+ quoted "NONE" +:+ " if the request is completely unrelated to all skills (e.g., "
  +:+ quoted "hello" +:+ ", " +:+ quoted "how are you" +:+ ")

Output: ONLY the skill name from the list above, or " +:+ quoted "NONE" +:+ " if no match.

Selected skill name:".

(** Use AI to select the most appropriate skill; returns the selected name
    ([None] for [null]) and the requests sent to the AI service. *)
Definition selectSkillWithAI (skills : list ClaudeSkill) (request routingModel : string)
  : option string * list AIRequest :=
  let prompt := routingPrompt skills request in
  match AI_ask host prompt routingModel with
  | Some response =>
      let trimmedResponse := JS.stripQuotes (JS.trim response) in
      if String.eqb (JS.toUpperCase trimmedResponse) "NONE" then (None, [(prompt, routingModel)])
      else (Some trimmedResponse, [(prompt, routingModel)])
  | None => (None, [(prompt, routingModel)])
  end.

Definition setupRequiredMessage : string :=
  "# Setup Required

Before using AI Skills, you need to configure your routing model preference.

## What is a Routing Model?

The routing model is a fast AI model that intelligently selects which skill to use based on your request.

## How to Setup

1. Open " +:+ quoted "Manage Skills" +:+ " command in Raycast
2. Click " +:+ quoted "Setup Preferences" +:+ " (gear icon)
3. Select your preferred routing model (we recommend **Gemini 2.5 Flash Lite**)
4. The selection is saved automatically

Once configured, you can use AI Skills to help with various tasks!".

Definition noSkillsEnabledMessage : string :=
  "No AI Skills are currently enabled.

To enable skills:
1. Open " +:+ quoted "Manage Skills" +:+ " command
2. Use Cmd+T to toggle skills on/off
3. Once enabled, skills will be available here

Skills must be enabled before they can be used by the AI.".

(** Use enabled AI Skills to assist with the user's request.  Returns the
    text and the requests sent to the AI service. *)
Definition tool (request : string) (st : Store) : option (string * list AIRequest) :=
  match getRoutingModel st with
  | None => Some (setupRequiredMessage, [])
  | Some routingModel =>
      enabledSkills ← getEnabledSkillObjects host st;
      if Nat.eqb (length enabledSkills) 0 then Some (noSkillsEnabledMessage, [])
      else
        let (selectedSkillName, sent) := selectSkillWithAI enabledSkills request routingModel in
        match selectedSkillName with
        | None => Some (formatNoMatchMessage enabledSkills, sent)
        | Some selected =>
            if String.eqb selected "" then Some (formatNoMatchMessage enabledSkills, sent)
            else
              match List.find (matchesName selected) enabledSkills with
              | Some selectedSkill => Some (formatSkillResponse selectedSkill, sent)
              | None => Some (formatNoMatchMessage enabledSkills, sent)
              end
        end
  end.

End Tool.
End UseSkills.

(** ** Instances of the host, for running the model *)

(** A reference reading of the [yaml] package on the fragment the extension
    writes: a block mapping, one [key: value] entry per line, whose values
    are plain or double-quoted scalars.  All entries of a block mapping
    must start in the same column; a document whose entries do not is
    rejected, as the package rejects it.  Documents outside the fragment
    (nested collections, block scalars, flow collections, comments) are
    rejected too: the instance is only meant to be run on the fragment. *)
Module FlatYaml.

Definition isLetter (c : ascii) : bool :=
  let n := nat_of_ascii c in
  (Nat.leb 65 n && Nat.leb n 90) || (Nat.leb 97 n && Nat.leb n 122).

Definition plainChar (c : ascii) : bool :=
  isLetter c || JSON.isDigit c
  || Ascii.eqb c "-" || Ascii.eqb c "_" || Ascii.eqb c "." || Ascii.eqb c "/"
  || Ascii.eqb c " ".

Fixpoint allChars (p : ascii -> bool) (s : string) : bool :=
  match s with
  | EmptyString => true
  | String c r => p c && allChars p r
  end.

Definition reservedWord (s : string) : bool :=
  JS.includes (JS.toLowerCase s) ["true"; "false"; "null"; "yes"; "no"; "on"; "off"].

(** A string the package writes, and reads back, as a plain scalar. *)
Definition plainSafe (s : string) : bool :=
  match s with
  | EmptyString => false
  | String c _ =>
      isLetter c && allChars plainChar s
      && String.eqb (JS.trimEnd s) s && negb (reservedWord s)
  end.

Definition stringifyScalar (s : string) : string :=
  if plainSafe s then s else string_of_list_ascii (JSON.quote s).

Definition stringifyEntry (kv : string * JSValue) : string :=
  match snd kv with
  | VStr s => fst kv +:+ ": " +:+ stringifyScalar s +:+ nl
  | _ => fst kv +:+ ": null" +:+ nl
  end.

(** [YAML.stringify(obj)] for an object whose properties are strings. *)
Definition stringify (v : JSValue) : string :=
  match v with
  | VObj fields => String.concat "" (map stringifyEntry fields)
  | _ => "null" +:+ nl
  end.

Fixpoint indentOf (line : string) : nat :=
  match line with
  | String c r => if Ascii.eqb c " " then S (indentOf r) else 0
  | EmptyString => 0
  end.

Definition parseScalar (s : string) : option JSValue :=
  if String.eqb s "" then Some VNull
  else if JS.startsWith (String dquote "") s then
    match JSON.parse s with
    | Some (VStr x) => Some (VStr x)
    | _ => None
    end
  else if String.eqb s "true" then Some (VBool true)
  else if String.eqb s "false" then Some (VBool false)
  else if String.eqb s "null" || String.eqb s "~" then Some VNull
  else if allChars JSON.isDigit s then Some (VNum s)
  else if plainSafe s then Some (VStr s)
  else None.

(** One entry, its indentation removed. *)
Definition parseEntry (line : string) : option (string * JSValue) :=
  match JS.indexOf ": " 0 line with
  | Some i =>
      let key := JS.substring 0 i line in
      if plainSafe key then
        match parseScalar (JS.trim (JS.substringFrom (i + 2) line)) with
        | Some v => Some (key, v)
        | None => None
        end
      else None
  | None => None
  end.

(** [YAML.parse(text)]; [None] when it throws. *)
Definition parse (text : string) : option JSValue :=
  let lines :=
    List.filter (fun l => negb (String.eqb (JS.trim l) ""))
      (JS.splitChar (ascii_of_nat 10) text) in
  match lines with
  | [] => Some VNull
  | first :: _ =>
      if forallb (fun l => Nat.eqb (indentOf l) (indentOf first)) lines then
        match mapM (fun l => parseEntry (JS.trimEnd (JS.trimStart l))) lines with
        | Some entries =>
            if bool_decide (NoDup (map fst entries)) then Some (VObj entries) else None
        | None => None
        end
      else None
  end.

End FlatYaml.

(** A host over an in-memory file system: [files] maps a path to its
    content, [dirs] a directory to its entries. *)
Section MemoryHost.

Variable files : list (string * string).
Variable dirs : list (string * list Dirent).
Variable ask : string -> string -> option string.

Fixpoint assoc {A} (key : string) (l : list (string * A)) : option A :=
  match l with
  | [] => None
  | (k, v) :: r => if String.eqb k key then Some v else assoc key r
  end.

Definition isSome {A} (o : option A) : bool :=
  match o with Some _ => true | None => false end.

Definition memoryHost : Host := {|
  env_HOME := Some "/home/u";
  env_USERPROFILE := None;
  fs_access := fun p => isSome (assoc p files) || isSome (assoc p dirs);
  fs_readdir := fun p => assoc p dirs;
  fs_readFile := fun p => assoc p files;
  fs_statIsFile := fun p =>
    if isSome (assoc p files) then Some true
    else if isSome (assoc p dirs) then Some false else None;
  fs_existsSync := fun p => isSome (assoc p files) || isSome (assoc p dirs);
  fs_statSyncIsDirectory := fun p =>
    if isSome (assoc p dirs) then Some true
    else if isSome (assoc p files) then Some false else None;
  AI_ask := ask;
  YAML_parse := FlatYaml.parse;
  YAML_stringify := FlatYaml.stringify;
|}.

End MemoryHost.

Definition fileEntry (name : string) : Dirent :=
  {| dirent_name := name; dirent_isDirectory := false |}.
Definition dirEntry (name : string) : Dirent :=
  {| dirent_name := name; dirent_isDirectory := true |}.

(** Two skills under [/skills], an empty folder [/more]. *)
Definition sampleFiles : list (string * string) :=
  [("/skills/summarizer/SKILL.md",
    "---
name: summarizer
description: Summarize long text
---

Be brief.
");
   ("/skills/summarizer/notes.txt", "n");
   ("/skills/translator/SKILL.md",
    "---
name: translate-text
description: Translate text
---

Translate faithfully.")].

Definition sampleDirs : list (string * list Dirent) :=
  [("/skills", [dirEntry "summarizer"; fileEntry "README.md"; dirEntry "translator"]);
   ("/skills/summarizer", [fileEntry "SKILL.md"; fileEntry "notes.txt"]);
   ("/skills/translator", [fileEntry "SKILL.md"]);
   ("/more", [])].

Definition sampleHost (reply : option string) : Host :=
  memoryHost sampleFiles sampleDirs (fun _ _ => reply).

Definition sampleStore : Store :=
  writeEnabled ["summarizer"; "translator"]
    (writeFolders [{| folder_path := "/skills"; folder_label := None |}]
       (setRoutingModel "Google_Gemini_2.5_Flash_Lite" ∅)).

(** ** Notions and inputs the statements use *)





(** [/^[a-z0-9-]+$/.test(name)], the test of the create-skill tool *)
Definition validSkillName (name : string) : bool :=
  negb (String.eqb name "")
  && FlatYaml.allChars
       (fun c =>
          let n := nat_of_ascii c in
          (Nat.leb 97 n && Nat.leb n 122) || (Nat.leb 48 n && Nat.leb n 57)
          || Nat.eqb n 45)
       name.




(** A store in which the skill [old-skill] was enabled and has since been
    deleted from disk ([deleteSkill] leaves the enabled list alone). *)
Definition staleStore : Store :=
  writeEnabled ["summarizer"; "old-skill"]
    (writeFolders [{| folder_path := "/skills"; folder_label := None |}] ∅).

(** The folder list after: the default folder is edited to [/Skills], the
    folder [/more] is added, and [/more] is then edited to [/skills]. *)
Definition twoSpellings : Store :=
  writeFolders [{| folder_path := "/Skills"; folder_label := None |};
                {| folder_path := "/skills"; folder_label := None |}] ∅.

(** The sample store with the skill [translator] disabled. *)
Definition oneDisabled : Store :=
  writeEnabled ["summarizer"]
    (writeFolders [{| folder_path := "/skills"; folder_label := None |}] ∅).

(** ** Further code of the extension *)

(** *** Lengths in UTF-16 code units *)

Module Text.

(** The UTF-16 code units that a byte of a UTF-8 text stands for: one for
    the first byte of a character of the Basic Multilingual Plane, two for
    the first byte of a character beyond it, none for a continuation
    byte. *)
Definition unitsOfByte (c : ascii) : nat :=
  let n := nat_of_ascii c in
  if Nat.ltb n 128 then 1
  else if Nat.ltb n 192 then 0
  else if Nat.ltb n 240 then 1
  else 2.

(** [s.length] *)
Fixpoint codeUnits (s : string) : nat :=
  match s with
  | EmptyString => 0
  | String c r => unitsOfByte c + codeUnits r
  end.


End Text.

(** A function that returns or throws an [Error] with a message. *)
Inductive Outcome (A : Type) : Type :=
| Returned (value : A)
| Thrown (message : string).

Arguments Returned {A} value.
Arguments Thrown {A} message.

(** *** storage.ts: reading a file of a skill *)

(** Read the full content of a supporting file; [None] when [fs.readFile]
    throws. *)
Definition readSupportingFile (host : Host) (skillName fileName : string) (st : Store)
  : option (Outcome string) :=
  found ← findSkill host skillName st;
  match found with
  | None => Some (Thrown ("Skill " +:+ quoted skillName +:+ " not found"))
  | Some skill =>
      let filePath := Path.join [skill_path skill; fileName] in
      if negb (fs_access host filePath) then
        Some (Thrown ("File " +:+ quoted fileName +:+ " not found in skill "
                      +:+ quoted skillName))
      else
        content ← fs_readFile host filePath;
        Some (Returned content)
  end.

(** *** Confirmations of the tools *)

Inductive ActionStyle : Type :=
| Regular
| Destructive.

(** What a [Tool.Confirmation] shows. *)
Record Confirmation := {
  confirmation_style : ActionStyle;
  confirmation_message : string;
  confirmation_info : list (string * string);
}.

(** Confirmation before removing a skills folder
    ([tools/remove-skills-folder.ts]); [Some None] is [undefined], for
    which no confirmation is shown. *)
Definition removeSkillsFolderConfirmation (host : Host) (folderPath : string) (st : Store)
  : option (option Confirmation) :=
  paths ← getSkillsFolderPaths host st;
  if negb (JS.includes folderPath paths) then Some None
  else
    Some (Some {| confirmation_style := Destructive;
                  confirmation_message :=
                    "Are you sure you want to remove this skills folder from the list?";
                  confirmation_info :=
                    [("Folder Path", folderPath);
                     ("Note",
                      "This won't delete the folder or its files, it just removes it from the list of folders to search for skills.")] |}).

(** *** tools/create-skill.ts *)

Module CreateSkill.
Section Tool.

Variable host : Host.


(** The message of the [Error] that [createSkill] throws for want of a
    skills folder. *)
Definition noFolderMessage : string :=
  "No skills folder configured. Please configure a skills folder before creating skills.".

(** Create a new Claude Code Skill.  Returns the text, the store and the
    writes on the file system, which are taken to succeed.  Of the [catch]
    branch, the case of the error that [createSkill] throws for want of a
    folder is modelled; on an ill-typed store the result is [None]. *)
Definition tool (name description content : string) (st : Store)
  : option (string * Store * list FsOp) :=
  if String.eqb name "" || Nat.eqb (Text.codeUnits (JS.trim name)) 0 then
    Some ("❌ Skill name is required.", st, [])
  else if negb (validSkillName name) then
    Some ("❌ Invalid skill name " +:+ quoted name
          +:+ ". Skill names must use lowercase letters, numbers, and hyphens only (max 64 characters).",
          st, [])
  else if Nat.ltb 64 (Text.codeUnits name) then
    Some ("❌ Skill name too long. Maximum 64 characters allowed.", st, [])
  else if String.eqb description "" || Nat.eqb (Text.codeUnits (JS.trim description)) 0
  then Some ("❌ Description is required.", st, [])
  else if Nat.ltb 1024 (Text.codeUnits description) then
    Some ("❌ Description too long. Maximum 1024 characters allowed (currently "
          +:+ JS.numberToString (Text.codeUnits description) +:+ " characters).",
          st, [])
  else if String.eqb content "" || Nat.eqb (Text.codeUnits (JS.trim content)) 0 then
    Some ("❌ Content is required.", st, [])
  else
    match createSkill host name description content None st with
    | Some (skill, st', writes) =>
        Some ("✅ Successfully created Claude Code Skill "
              +:+ quoted (meta_name (skill_metadata skill)) +:+ nl +:+ nl
              +:+ "Directory: " +:+ skill_path skill +:+ nl +:+ nl
              +:+ "Description: " +:+ meta_description (skill_metadata skill)
              +:+ nl +:+ nl
              +:+ "The skill is enabled by default and available for Claude to use automatically when relevant.",
              st', writes)
    | None =>
        match getSkillsFolderPath host st with
        | Some folder =>
            if String.eqb folder "" then
              Some ("❌ Failed to create skill: " +:+ noFolderMessage, st, [])
            else None
        | None => None
        end
    end.

End Tool.
End CreateSkill.

(** *** manage-skills.tsx: the state of the command and its handlers *)

Module ManageSkills.

(** The React state of [Command]; the set of enabled names is kept in
    insertion order. *)
Record View := {
  view_skills : list ClaudeSkill;
  view_enabledSkills : list string;
  view_skillsFolders : list string;
  view_routingModel : option string;
}.

Section Command.

Variable host : Host.

(** [loadSkills]; [None] when a read throws (a toast is shown). *)
Definition loadSkills (st : Store) : option (View * Store) :=
  loadedSkills ← getAllSkills host st;
  folders ← getSkillsFolderPaths host st;
  let model := getRoutingModel st in
  enabled ← getEnabledSkills st;
  let allSkillNames := map skill_name loadedSkills in
  let reenable := Nat.eqb (length enabled) 0 && Nat.ltb 0 (length loadedSkills) in
  Some ({| view_skills := loadedSkills;
           view_enabledSkills := JS.unique (if reenable then allSkillNames else enabled);
           view_skillsFolders := folders;
           view_routingModel := model |},
        if reenable then setEnabledSkillNames allSkillNames st else st).

(** [next.delete(skillName)] and [next.add(skillName)] on a copy of the set *)
Definition setDelete (x : string) (s : list string) : list string :=
  List.filter (fun y => negb (String.eqb y x)) s.

Definition setAdd (x : string) (s : list string) : list string :=
  if JS.includes x s then s else s ++ [x].

(** [toggleSkillEnabled] *)
Definition toggleSkillEnabled (skillName : string) (view : View) (st : Store)
  : option (View * Store) :=
  if JS.includes skillName (view_enabledSkills view) then
    st' ← disableSkill skillName st;
    Some ({| view_skills := view_skills view;
             view_enabledSkills := setDelete skillName (view_enabledSkills view);
             view_skillsFolders := view_skillsFolders view;
             view_routingModel := view_routingModel view |}, st')
  else
    st' ← enableSkill skillName st;
    Some ({| view_skills := view_skills view;
             view_enabledSkills := setAdd skillName (view_enabledSkills view);
             view_skillsFolders := view_skillsFolders view;
             view_routingModel := view_routingModel view |}, st').

(** [setAllSkillsEnabled] *)
Definition setAllSkillsEnabled (nextEnabled : bool) (view : View) (st : Store)
  : View * Store :=
  let skillNames := if nextEnabled then map skill_name (view_skills view) else [] in
  ({| view_skills := view_skills view;
      view_enabledSkills := JS.unique skillNames;
      view_skillsFolders := view_skillsFolders view;
      view_routingModel := view_routingModel view |},
   setEnabledSkillNames skillNames st).

End Command.
End ManageSkills.

(** *** models.ts *)

Module Models.

Inductive Tier : Type :=
| Fastest
| Fast.

Inductive Provider : Type :=
| OpenAI
| Google
| Anthropic
| Other.

Record FastModel := {
  model_id : string;
  model_name : string;
  model_description : string;
  model_tier : Tier;
  model_provider : Provider;
}.

(** [s.includes(sub)] on strings *)
Definition contains (sub s : string) : bool := isSome (String.index 0 sub s).

(** Keywords that indicate a model is optimized for speed *)
Definition FAST_KEYWORDS_fastest : list string := ["flash"; "lite"; "haiku"; "nano"].
Definition FAST_KEYWORDS_fast : list string :=
  ["mini"; "4o-mini"; "o1-mini"; "o3-mini"; "o4-mini"].

(** Keywords that indicate a model is NOT suitable for routing *)
Definition EXCLUDE_KEYWORDS : list string :=
  ["pro"; "thinking"; "sonnet"; "opus"; "turbo"; "ultra"].

(** Get provider from model name *)
Definition getProvider (modelName : string) : Provider :=
  let name := JS.toLowerCase modelName in
  if contains "openai" name || contains "gpt" name || JS.startsWith "o" name then OpenAI
  else if contains "google" name || contains "gemini" name then Google
  else if contains "anthropic" name || contains "claude" name then Anthropic
  else Other.

(** Generate description based on model characteristics *)
Definition generateDescription (name : string) (tier : Tier) : string :=
  match tier with
  | Fastest =>
      if contains "flash" (JS.toLowerCase name) then
        "Ultra-fast model optimized for agentic experiences and quick responses."
      else if contains "haiku" (JS.toLowerCase name) then
        "Fastest Claude model with large context window for code and text analysis."
      else if contains "nano" (JS.toLowerCase name) then
        "Compact and ultra-fast. Ideal for summarization and classification tasks."
      else "Ultra-fast model optimized for speed and efficiency."
  | Fast =>
      if contains "mini" (JS.toLowerCase name) then
        "Fast and intelligent model for everyday tasks. Great balance of speed and quality."
      else "Fast model optimized for efficient routing."
  end.

(** Determine speed tier based on model name *)
Definition getSpeedTier (modelName : string) : Tier :=
  let name := JS.toLowerCase modelName in
  if existsb (fun keyword => contains keyword name) FAST_KEYWORDS_fastest then Fastest
  else if existsb (fun keyword => contains keyword name) FAST_KEYWORDS_fast then Fast
  else Fast.

(** [s.replace(/_/g, " ")] *)
Definition underscoresToSpaces (s : string) : string :=
  JS.mapChars (fun c => if Ascii.eqb c "_" then " "%char else c) s.

(** [s.replace(/(\d)/g, " $1")] *)
Fixpoint spaceBeforeDigits (s : string) : string :=
  match s with
  | EmptyString => EmptyString
  | String c r =>
      if JSON.isDigit c then String " " (String c (spaceBeforeDigits r))
      else String c (spaceBeforeDigits r)
  end.

(** The body of the loop of [getFastModels] for one key of [AI.Model];
    [None] when the key is skipped ([continue]). *)
Definition fastModelOf (modelKey : string) : option FastModel :=
  let modelKeyLower := JS.toLowerCase modelKey in
  if JS.startsWith "Anthropic_Claude_3.7" modelKey
     || contains "3.5-turbo" modelKey
     || contains "GPT3.5" modelKey
     || contains "Llama2" modelKey
     || (contains "Llama3" modelKey && negb (contains "3.1" modelKey)
         && negb (contains "3.3" modelKey))
  then None
  else if existsb (fun kw => contains kw modelKeyLower) EXCLUDE_KEYWORDS then None
  else
    let hasFastKeyword :=
      existsb (fun kw => contains kw modelKeyLower) FAST_KEYWORDS_fastest
      || existsb (fun kw => contains kw modelKeyLower) FAST_KEYWORDS_fast in
    if negb hasFastKeyword then None
    else
      let tier := getSpeedTier modelKey in
      let provider := getProvider modelKey in
      let name := JS.trim (spaceBeforeDigits (underscoresToSpaces modelKey)) in
      Some {| model_id := modelKey;
              model_name := name;
              model_description := generateDescription name tier;
              model_tier := tier;
              model_provider := provider |}.

Section Models.

(** The keys of the enumeration [AI.Model] of the host, in its order. *)
Variable AI_Model : list string.

(** Dynamically extract fast models from AI.Model enum *)
Definition getFastModels : list FastModel := omap fastModelOf AI_Model.

(** Cached list of fast models *)
Definition FAST_MODELS : list FastModel := getFastModels.

(** Get model metadata by ID *)
Definition getModelById (id : string) : option FastModel :=
  List.find (fun model => String.eqb (model_id model) id) FAST_MODELS.

End Models.

End Models.

(** ** Notions the further properties use *)


(** The state of the command shows as enabled exactly the names that the
    store holds as enabled. *)
Definition inSync (view : ManageSkills.View) (st : Store) : Prop :=
  exists enabled,
    getEnabledSkills st = Some enabled
    /\ forall n, In n (ManageSkills.view_enabledSkills view) <-> In n enabled.


(** A store whose list of enabled skills is not a JSON document. *)
Definition corruptStore : Store := <[ENABLED_SKILLS_KEY := "summarizer,translator"]> ∅.




(** * Properties *)

(** ** The model at work *)

Example trim_ex : JS.trim (String "010" "  a b	 ") = "a b".
Proof. reflexivity. Qed.

Example split_ex : JS.splitChar "/" "/a//b/" = [""; "a"; ""; "b"; ""].
Proof. reflexivity. Qed.

Example unique_ex : JS.unique ["a"; "b"; "a"; "c"; "b"] = ["a"; "b"; "c"].
Proof. reflexivity. Qed.

Example num_ex : JS.numberToString 12 = "12" /\ JS.numberToString 0 = "0".
Proof. split; reflexivity. Qed.

Example json_ex1 :
  JSON.stringify (VArr [VStr "a\b"; VObj [("path", VStr "/x"); ("n", VNull)]; VArr []])
  = "[" +:+ quoted "a\\b" +:+ ",{" +:+ quoted "path" +:+ ":" +:+ quoted "/x"
    +:+ "," +:+ quoted "n" +:+ ":null},[]]".
Proof. reflexivity. Qed.

Example json_ex2 :
  JSON.parse (" [ " +:+ quoted "a\né" +:+ ", {" +:+ quoted "k"
              +:+ " : [1.5e3, true]} , [] ] ")
  = Some (VArr [VStr (String "a" (String "010" (String "195" (String "169" ""))));
                VObj [("k", VArr [VNum "1.5e3"; VBool true])]; VArr []]).
Proof. vm_compute. reflexivity. Qed.

Example json_ex3 : JSON.parse "/Users/me/.claude/skills" = None.
Proof. reflexivity. Qed.

Example json_ex4 : JSON.parse "[" = None /\ JSON.parse "01" = None /\ JSON.parse "" = None.
Proof. repeat split; reflexivity. Qed.

Example normalize_ex :
  Path.normalize "/a/../b//c/./" = "/b/c/"
  /\ Path.normalize "a/../../x" = "../x"
  /\ Path.normalize "/../x" = "/x"
  /\ Path.normalize "./" = "./"
  /\ Path.join ["/home/u"; ".claude"; "skills"] = "/home/u/.claude/skills".
Proof. repeat split; reflexivity. Qed.

Example getAllSkills_ex :
  option_map (map (fun s => (skill_name s, meta_name (skill_metadata s), skill_content s,
                             skill_supportingFiles s)))
    (getAllSkills (sampleHost None) sampleStore)
  = Some [("summarizer", "summarizer", "Be brief.", ["notes.txt"]);
          ("translator", "translate-text", "Translate faithfully.", [])].
Proof. vm_compute. reflexivity. Qed.

Example yaml_ex :
  FlatYaml.parse "name: a
description: b c" = Some (VObj [("name", VStr "a"); ("description", VStr "b c")])
  /\ FlatYaml.parse "
  name: a
description: b
" = None
  /\ FlatYaml.stringify (VObj [("name", VStr "a---b"); ("description", VStr "d")])
     = "name: a---b
description: d
".
Proof. repeat split; vm_compute; reflexivity. Qed.

(** ** JSON: parsing what was serialized *)

Module JSONFacts.
Import JSON.
Local Open Scope char_scope.

Lemma parseStringBody_escapeChar c t :
  parseStringBody (escapeChar c ++ t)
  = match parseStringBody t with
    | Some (str, rest) => Some (c :: str, rest)
    | None => None
    end.
Proof.
  destruct c as [[] [] [] [] [] [] [] []]; reflexivity.
Qed.

Lemma parseStringBody_escape s rest :
  parseStringBody (flat_map escapeChar s ++ dquote :: rest) = Some (s, rest).
Proof.
  induction s as [|c s IH]; [reflexivity|].
  cbn [flat_map]. rewrite <- List.app_assoc, parseStringBody_escapeChar, IH.
  reflexivity.
Qed.

Lemma parseStringBody_quote s rest :
  exists body,
    quote s ++ rest = dquote :: body
    /\ parseStringBody body = Some (list_ascii_of_string s, rest).
Proof.
  exists (flat_map escapeChar (list_ascii_of_string s) ++ dquote :: rest).
  split; [|apply parseStringBody_escape].
  unfold quote. cbn [app]. now rewrite <- List.app_assoc.
Qed.

Lemma write_head v :
  numberFree v = true ->
  exists c r, write v = c :: r /\ isWs c = false
              /\ Ascii.eqb c "]" = false /\ Ascii.eqb c "}" = false.
Proof.
  destruct v as [|[]| | | |]; cbn [numberFree write]; intros Hnf;
    try discriminate; unfold quote; cbn [list_ascii_of_string];
    eexists _, _; (split; [reflexivity|]); repeat split.
Qed.

Lemma skipWs_nonws c t : isWs c = false -> skipWs (c :: t) = c :: t.
Proof. intros H. cbn [skipWs]. now rewrite H. Qed.

Ltac skip_sep :=
  cbn [app]; rewrite skipWs_nonws by reflexivity;
  cbn [Ascii.eqb Bool.eqb]; cbv iota.

Lemma sepBy_cons sep p ps :
  ps <> [] -> sepBy sep (p :: ps) = p ++ sep :: sepBy sep ps.
Proof. destruct ps; [congruence|reflexivity]. Qed.

Lemma parseValue_arr f body :
  parseValue (S f) ("[" :: body)
  = match skipWs body with
    | [] => None
    | c :: r =>
        if Ascii.eqb c "]" then Some (VArr [], r)
        else match parseElements f body with
             | Some (items, r') => Some (VArr items, r')
             | None => None
             end
    end.
Proof. reflexivity. Qed.

Lemma parseValue_obj f body :
  parseValue (S f) ("{" :: body)
  = match skipWs body with
    | [] => None
    | c :: r =>
        if Ascii.eqb c "}" then Some (VObj [], r)
        else match parseMembers f body with
             | Some (fields, r') => Some (VObj fields, r')
             | None => None
             end
    end.
Proof. reflexivity. Qed.

Lemma parseValue_str f body :
  parseValue (S f) (dquote :: body)
  = match parseStringBody body with
    | Some (str, r) => Some (VStr (string_of_list_ascii str), r)
    | None => None
    end.
Proof. reflexivity. Qed.

Lemma parseElements_S f s :
  parseElements (S f) s
  = match parseValue f s with
    | None => None
    | Some (v, r) =>
        match skipWs r with
        | [] => None
        | c :: r' =>
            if Ascii.eqb c "," then
              match parseElements f r' with
              | Some (vs, r'') => Some (v :: vs, r'')
              | None => None
              end
            else if Ascii.eqb c "]" then Some ([v], r')
            else None
        end
    end.
Proof. reflexivity. Qed.

Lemma parseMembers_S f body :
  parseMembers (S f) (dquote :: body)
  = match parseStringBody body with
    | None => None
    | Some (k, r1) =>
        match skipWs r1 with
        | [] => None
        | c1 :: r2 =>
            if Ascii.eqb c1 ":" then
              match parseValue f r2 with
              | None => None
              | Some (v, r3) =>
                  match skipWs r3 with
                  | [] => None
                  | c3 :: r4 =>
                      if Ascii.eqb c3 "," then
                        match parseMembers f r4 with
                        | Some (ms, r5) => Some ((string_of_list_ascii k, v) :: ms, r5)
                        | None => None
                        end
                      else if Ascii.eqb c3 "}" then
                        Some ([(string_of_list_ascii k, v)], r4)
                      else None
                  end
              end
            else None
        end
    end.
Proof. reflexivity. Qed.

Lemma parseElements_write items :
  Forall parsesBack items ->
  forallb numberFree items = true ->
  items <> [] ->
  forall fuel rest,
    list_sum (map (fun x => S (cost x)) items) <= fuel ->
    parseElements fuel (sepBy "," (map write items) ++ "]" :: rest)
    = Some (items, rest).
Proof.
  induction items as [|v vs IH]; [congruence|].
  intros HF Hnf _ fuel rest Hfuel.
  apply List.Forall_cons_iff in HF as [Hv Hvs].
  cbn [forallb] in Hnf. apply andb_true_iff in Hnf as [Hnv Hnvs].
  cbn [map list_sum fold_right] in Hfuel.
  destruct fuel as [|f]; [lia|].
  rewrite parseElements_S.
  destruct vs as [|v' vs'].
  - cbn [map sepBy]. rewrite (Hv Hnv) by lia. skip_sep. reflexivity.
  - specialize (IH Hvs Hnvs).
    change (map write (v :: v' :: vs')) with (write v :: map write (v' :: vs')).
    rewrite sepBy_cons by discriminate.
    rewrite <- List.app_assoc. rewrite (Hv Hnv) by lia.
    skip_sep.
    rewrite IH; [reflexivity|congruence|].
    cbn [map list_sum fold_right] in *. lia.
Qed.

Lemma parseMembers_write fields :
  Forall (fun kv => parsesBack (snd kv)) fields ->
  forallb (fun kv => numberFree (snd kv)) fields = true ->
  fields <> [] ->
  forall fuel rest,
    list_sum (map (fun kv => S (cost (snd kv))) fields) <= fuel ->
    parseMembers fuel
      (sepBy "," (map (fun kv => quote (fst kv) ++ ":" :: write (snd kv)) fields)
         ++ "}" :: rest)
    = Some (fields, rest).
Proof.
  induction fields as [|[k v] ms IH]; [congruence|].
  intros HF Hnf _ fuel rest Hfuel.
  apply List.Forall_cons_iff in HF as [Hv Hms]. cbn [snd] in Hv.
  cbn [forallb snd] in Hnf. apply andb_true_iff in Hnf as [Hnv Hnms].
  cbn [map list_sum fold_right snd] in Hfuel.
  destruct fuel as [|f]; [lia|].
  destruct ms as [|m' ms'].
  - cbn [map sepBy fst snd]. rewrite <- List.app_assoc.
    destruct (parseStringBody_quote k ((":" :: write v) ++ "}" :: rest))
      as (body & E & Hb).
    rewrite E, parseMembers_S, Hb. skip_sep.
    rewrite (Hv Hnv) by lia. skip_sep.
    now rewrite string_of_list_ascii_of_string.
  - specialize (IH Hms Hnms).
    change (map ?g ((k, v) :: m' :: ms')) with (g (k, v) :: map g (m' :: ms')).
    rewrite sepBy_cons by discriminate. cbn [fst snd].
    rewrite <- !List.app_assoc.
    match goal with
    | |- parseMembers _ (quote k ++ ?t) = _ =>
        destruct (parseStringBody_quote k t) as (body & E & Hb)
    end.
    rewrite E, parseMembers_S, Hb. skip_sep.
    rewrite (Hv Hnv) by lia. skip_sep.
    rewrite string_of_list_ascii_of_string.
    rewrite IH; [reflexivity|congruence|].
    cbn [map list_sum fold_right] in *. lia.
Qed.

Theorem parseValue_write v : parsesBack v.
Proof.
  induction v as [|b|lexeme|s|items IH|fields IH] using JSValue_nested_ind;
    intros Hnf fuel rest Hfuel; cbn [cost] in Hfuel;
    (destruct fuel as [|f]; [lia|]).
  - reflexivity.
  - destruct b; reflexivity.
  - discriminate.
  - cbn [write]. destruct (parseStringBody_quote s rest) as (body & E & Hb).
    rewrite E, parseValue_str, Hb. now rewrite string_of_list_ascii_of_string.
  - cbn [write numberFree] in *. cbn [app]. rewrite parseValue_arr.
    destruct items as [|v vs]; [reflexivity|].
    rewrite <- List.app_assoc. cbn [app].
    rewrite (parseElements_write (v :: vs) IH Hnf) by (congruence || lia).
    cbn [forallb] in Hnf. apply andb_true_iff in Hnf as [Hnv _].
    destruct (write_head v Hnv) as (c & r & E & Hws & Hb & _).
    assert (Hhd : exists t, sepBy "," (map write (v :: vs)) ++ "]" :: rest = c :: t).
    { cbn [map]. destruct vs as [|v' vs'].
      - cbn [map sepBy]. rewrite E. eexists; reflexivity.
      - change (map write (v' :: vs')) with (write v' :: map write vs').
        rewrite sepBy_cons by discriminate. rewrite E. eexists; reflexivity. }
    destruct Hhd as [t ->]. cbn [skipWs]. now rewrite Hws, Hb.
  - cbn [write numberFree] in *. cbn [app]. rewrite parseValue_obj.
    destruct fields as [|[k v] ms]; [reflexivity|].
    rewrite <- List.app_assoc. cbn [app].
    rewrite (parseMembers_write ((k, v) :: ms) IH Hnf) by (congruence || lia).
    assert (Hhd : exists t,
      sepBy "," (map (fun kv => quote (fst kv) ++ ":" :: write (snd kv)) ((k, v) :: ms))
        ++ "}" :: rest = dquote :: t).
    { cbn [map]. destruct ms as [|m' ms'].
      - cbn [map sepBy]. unfold quote. eexists; reflexivity.
      - change (map ?g (m' :: ms')) with (g m' :: map g ms').
        rewrite sepBy_cons by discriminate. unfold quote. eexists; reflexivity. }
    destruct Hhd as [t ->]. reflexivity.
Qed.

Lemma cost_elements_le (items : list JSValue) :
  Forall (fun v => numberFree v = true -> cost v <= length (write v)) items ->
  forallb numberFree items = true ->
  list_sum (map (fun x => S (cost x)) items)
  <= S (length (sepBy "," (map write items))).
Proof.
  induction items as [|v vs IH]; intros HF Hnf; [cbn; lia|].
  apply List.Forall_cons_iff in HF as [Hv Hvs].
  cbn [forallb] in Hnf. apply andb_true_iff in Hnf as [Hnv Hnvs].
  specialize (IH Hvs Hnvs). specialize (Hv Hnv).
  destruct vs as [|v' vs'].
  - cbn [map sepBy list_sum fold_right]. lia.
  - change (map write (v :: v' :: vs')) with (write v :: map write (v' :: vs')).
    rewrite sepBy_cons by discriminate.
    rewrite length_app. cbn [length].
    cbn [map list_sum fold_right] in IH |- *. lia.
Qed.

Lemma cost_members_le (fields : list (string * JSValue)) :
  Forall (fun kv => numberFree (snd kv) = true
                    -> cost (snd kv) <= length (write (snd kv))) fields ->
  forallb (fun kv => numberFree (snd kv)) fields = true ->
  list_sum (map (fun kv => S (cost (snd kv))) fields)
  <= S (length (sepBy ","
          (map (fun kv => quote (fst kv) ++ ":" :: write (snd kv)) fields))).
Proof.
  induction fields as [|[k v] ms IH]; intros HF Hnf; [cbn; lia|].
  apply List.Forall_cons_iff in HF as [Hv Hms]. cbn [snd] in Hv.
  cbn [forallb snd] in Hnf. apply andb_true_iff in Hnf as [Hnv Hnms].
  specialize (IH Hms Hnms). specialize (Hv Hnv).
  destruct ms as [|m' ms'].
  - cbn [map sepBy list_sum fold_right fst snd].
    rewrite length_app. cbn [length]. lia.
  - change (map ?g ((k, v) :: m' :: ms')) with (g (k, v) :: map g (m' :: ms')).
    rewrite sepBy_cons by discriminate. cbn [fst snd].
    rewrite !length_app. cbn [length]. rewrite ?length_app. cbn [length].
    cbn [map list_sum fold_right] in IH |- *. lia.
Qed.

Lemma cost_le_length v : numberFree v = true -> cost v <= length (write v).
Proof.
  induction v as [|b|lexeme|s|items IH|fields IH] using JSValue_nested_ind;
    intros Hnf.
  - cbn. lia.
  - destruct b; cbn; lia.
  - discriminate.
  - cbn [cost write]. unfold quote. cbn [length]. lia.
  - cbn [cost write numberFree] in *. cbn [length]. rewrite length_app.
    pose proof (cost_elements_le items IH Hnf). cbn [length]. lia.
  - cbn [cost write numberFree] in *. cbn [length]. rewrite length_app.
    pose proof (cost_members_le fields IH Hnf). cbn [length]. lia.
Qed.

(** [JSON.parse(JSON.stringify(v))] gives [v] back. *)
Theorem parse_stringify v :
  numberFree v = true -> parse (stringify v) = Some v.
Proof.
  intros Hnf. unfold parse, stringify.
  rewrite list_ascii_of_string_of_list_ascii.
  pose proof (parseValue_write v Hnf (S (length (write v))) []) as H.
  rewrite List.app_nil_r in H. rewrite H; [reflexivity|].
  pose proof (cost_le_length v Hnf). lia.
Qed.

(** The text of a serialized value is never empty. *)
Lemma stringify_nonempty v : numberFree v = true -> stringify v <> EmptyString.
Proof.
  intros Hnf. destruct (write_head v Hnf) as (c & r & E & _).
  unfold stringify. now rewrite E.
Qed.

End JSONFacts.

(** ** Reading back what was written *)

Lemma folderOfJS_folderToJS f : folderOfJS (folderToJS f) = Some f.
Proof. destruct f as [p [l|]]; reflexivity. Qed.

Lemma mapM_folderOfJS folders : mapM folderOfJS (map folderToJS folders) = Some folders.
Proof.
  induction folders as [|f fs IH]; [reflexivity|].
  cbn [map mapM]. rewrite folderOfJS_folderToJS. cbn. rewrite IH. reflexivity.
Qed.

Lemma mapM_stringOfJS names : mapM stringOfJS (map VStr names) = Some names.
Proof.
  induction names as [|n ns IH]; [reflexivity|].
  cbn [map mapM stringOfJS]. cbn. rewrite IH. reflexivity.
Qed.

Lemma numberFree_folders folders : numberFree (VArr (map folderToJS folders)) = true.
Proof.
  cbn [numberFree]. induction folders as [|[p [l|]] fs IH]; [reflexivity| |];
    cbn [map forallb]; rewrite IH; reflexivity.
Qed.

Lemma numberFree_names names : numberFree (VArr (map VStr names)) = true.
Proof.
  cbn [numberFree]. induction names as [|n ns IH]; [reflexivity|].
  cbn [map forallb]. rewrite IH. reflexivity.
Qed.

Lemma eqb_empty_false s : s <> "" -> negb (String.eqb s "") = true.
Proof. intros H. apply negb_true_iff, String.eqb_neq, H. Qed.

Lemma getSkillsFolders_writeFolders host folders st :
  getSkillsFolders host (writeFolders folders st) = Some folders.
Proof.
  unfold getSkillsFolders, writeFolders. rewrite lookup_insert_eq.
  rewrite eqb_empty_false by apply JSONFacts.stringify_nonempty, numberFree_folders.
  rewrite JSONFacts.parse_stringify by apply numberFree_folders.
  apply mapM_folderOfJS.
Qed.

Lemma getEnabledSkills_writeEnabled names st :
  getEnabledSkills (writeEnabled names st) = Some names.
Proof.
  unfold getEnabledSkills, writeEnabled. rewrite lookup_insert_eq.
  rewrite eqb_empty_false by apply JSONFacts.stringify_nonempty, numberFree_names.
  rewrite JSONFacts.parse_stringify by apply numberFree_names.
  apply mapM_stringOfJS.
Qed.

Lemma getSkillsFolders_writeEnabled host names st :
  getSkillsFolders host (writeEnabled names st) = getSkillsFolders host st.
Proof.
  unfold getSkillsFolders, writeEnabled.
  rewrite lookup_insert_ne by discriminate. reflexivity.
Qed.

Lemma getEnabledSkills_writeFolders folders st :
  getEnabledSkills (writeFolders folders st) = getEnabledSkills st.
Proof.
  unfold getEnabledSkills, writeFolders.
  rewrite lookup_insert_ne by discriminate. reflexivity.
Qed.

Lemma getAllSkills_writeEnabled host names st :
  getAllSkills host (writeEnabled names st) = getAllSkills host st.
Proof.
  unfold getAllSkills, getSkillsFolderPaths.
  rewrite getSkillsFolders_writeEnabled. reflexivity.
Qed.

(** ** Membership in an array of names *)

Lemma includes_In x l : JS.includes x l = true <-> In x l.
Proof.
  unfold JS.includes. rewrite existsb_exists. split.
  - intros (y & Hy & E). apply String.eqb_eq in E. now subst.
  - intros H. exists x. split; [assumption|apply String.eqb_refl].
Qed.

Lemma includes_false x l : JS.includes x l = false <-> ~ In x l.
Proof.
  rewrite <- includes_In. destruct (JS.includes x l); split; congruence.
Qed.

Lemma includes_app x l1 l2 :
  JS.includes x (l1 ++ l2) = JS.includes x l1 || JS.includes x l2.
Proof. apply existsb_app. Qed.

Lemma includes_push_same x l : JS.includes x (l ++ [x]) = true.
Proof. apply includes_In, in_or_app. right. now left. Qed.

Lemma includes_push_other x y l : x <> y -> JS.includes x (l ++ [y]) = JS.includes x l.
Proof.
  intros Hne. rewrite includes_app. cbn.
  apply String.eqb_neq in Hne. rewrite Hne. now rewrite !orb_false_r.
Qed.

Lemma In_without x y l :
  In x (List.filter (fun n => negb (String.eqb n y)) l) <-> In x l /\ x <> y.
Proof.
  rewrite filter_In, negb_true_iff, String.eqb_neq. reflexivity.
Qed.

Lemma includes_without_same x l :
  JS.includes x (List.filter (fun n => negb (String.eqb n x)) l) = false.
Proof. apply includes_false. rewrite In_without. tauto. Qed.

Lemma includes_without_other x y l :
  x <> y ->
  JS.includes x (List.filter (fun n => negb (String.eqb n y)) l) = JS.includes x l.
Proof.
  intros Hne. destruct (JS.includes x l) eqn:E.
  - apply includes_In. apply includes_In in E. rewrite In_without. tauto.
  - apply includes_false. apply includes_false in E. rewrite In_without. tauto.
Qed.

(** ** C5: enabling and disabling *)

(** C5.  For every skill name [n] and every store whose enabled list reads
    as a list of names: after [enableSkill n], [isSkillEnabled n] is true;
    after [disableSkill n], it is false; both leave the status of every
    other name unchanged; and [enableSkill] of a name already enabled leaves
    the store (hence the stored list) identical. *)
Theorem C5_enable_disable (st : Store) (n : string) (enabled : list string) :
  getEnabledSkills st = Some enabled ->
  (exists st1,
      enableSkill n st = Some st1
      /\ isSkillEnabled n st1 = Some true
      /\ (forall m, m <> n -> isSkillEnabled m st1 = isSkillEnabled m st)
      /\ (JS.includes n enabled = true -> st1 = st))
  /\ (exists st2,
         disableSkill n st = Some st2
         /\ isSkillEnabled n st2 = Some false
         /\ (forall m, m <> n -> isSkillEnabled m st2 = isSkillEnabled m st)).
Proof.
  intros Hget. split.
  - unfold enableSkill. rewrite Hget. cbn [mbind option_bind].
    destruct (JS.includes n enabled) eqn:Hin; cbn [negb].
    + exists st. unfold isSkillEnabled. rewrite Hget. cbn. rewrite Hin. auto.
    + eexists. split; [reflexivity|]. unfold isSkillEnabled.
      rewrite getEnabledSkills_writeEnabled, Hget. cbn.
      rewrite includes_push_same. repeat split; [|discriminate].
      intros m Hm. now rewrite includes_push_other.
  - unfold disableSkill. rewrite Hget. cbn [mbind option_bind].
    eexists. split; [reflexivity|]. unfold isSkillEnabled.
    rewrite getEnabledSkills_writeEnabled, Hget. cbn.
    rewrite includes_without_same. split; [reflexivity|].
    intros m Hm. now rewrite includes_without_other.
Qed.

Lemma C5_enable_disable_witness :
  getEnabledSkills sampleStore = Some ["summarizer"; "translator"]
  /\ (exists st1,
         enableSkill "planner" sampleStore = Some st1
         /\ isSkillEnabled "planner" st1 = Some true
         /\ (forall m, m <> "planner" -> isSkillEnabled m st1 = isSkillEnabled m sampleStore)
         /\ (JS.includes "planner" ["summarizer"; "translator"] = true -> st1 = sampleStore)).
Proof.
  split; [vm_compute; reflexivity|].
  apply (C5_enable_disable sampleStore "planner" ["summarizer"; "translator"]).
  vm_compute; reflexivity.
Defined.

(** ** C6: the folder list *)



(** ** C8: what is written to the store *)






(** ** C10: duplicates in the enabled list *)

Lemma In_uniqueFrom x seen l :
  In x (JS.uniqueFrom seen l) <-> In x l /\ ~ In x seen.
Proof.
  revert seen. induction l as [|y l IH]; intros seen; cbn [JS.uniqueFrom In].
  - tauto.
  - destruct (JS.includes y seen) eqn:E.
    + apply includes_In in E. rewrite IH. split.
      * tauto.
      * intros [[<-|H] Hs]; tauto.
    + apply includes_false in E. cbn [In]. rewrite IH. cbn [In]. split.
      * intros [<-|[H Hs]]; [tauto|]. split; [tauto|]. intros Hx. apply Hs. now right.
      * intros [[<-|H] Hs]; [now left|].
        destruct (string_dec y x) as [->|Hne]; [now left|]. right.
        split; [assumption|]. intros [->|Hx]; tauto.
Qed.

Lemma NoDup_uniqueFrom seen l : List.NoDup (JS.uniqueFrom seen l).
Proof.
  revert seen. induction l as [|y l IH]; intros seen; cbn [JS.uniqueFrom].
  - constructor.
  - destruct (JS.includes y seen); [apply IH|].
    constructor; [|apply IH].
    rewrite In_uniqueFrom. cbn [In]. tauto.
Qed.

Lemma In_unique x l : In x (JS.unique l) <-> In x l.
Proof. unfold JS.unique. rewrite In_uniqueFrom. cbn [In]. tauto. Qed.

Lemma NoDup_unique l : List.NoDup (JS.unique l).
Proof. apply NoDup_uniqueFrom. Qed.

Lemma NoDup_push (x : string) l : List.NoDup l -> ~ In x l -> List.NoDup (l ++ [x]).
Proof.
  induction 1 as [|y l Hy Hl IH]; intros Hx; cbn [app].
  - constructor; [intros []|constructor].
  - constructor.
    + rewrite in_app_iff. cbn [In]. intros [H|[<-|[]]]; [tauto|].
      apply Hx. now left.
    + apply IH. intros H. apply Hx. now right.
Qed.

Lemma NoDup_without (y : string) l :
  List.NoDup l -> List.NoDup (List.filter (fun n => negb (String.eqb n y)) l).
Proof. apply List.NoDup_filter. Qed.

(** The writers that keep the enabled list free of duplicates:
    [enableSkill], [disableSkill] and [setEnabledSkillNames]; and the
    renaming of [updateSkill] when the new name is not in the list. *)
Lemma enabled_writers_NoDup (host : Host) (st : Store) (enabled : list string) :
  getEnabledSkills st = Some enabled ->
  List.NoDup enabled ->
  (forall n st', enableSkill n st = Some st' ->
                 exists l, getEnabledSkills st' = Some l /\ List.NoDup l)
  /\ (forall n st', disableSkill n st = Some st' ->
                    exists l, getEnabledSkills st' = Some l /\ List.NoDup l)
  /\ (forall names,
         exists l, getEnabledSkills (setEnabledSkillNames names st) = Some l
                   /\ List.NoDup l)
  /\ (forall n m st', updateSkill_store host n (Some m) st = Some st' ->
                      ~ In m enabled ->
                      exists l, getEnabledSkills st' = Some l /\ List.NoDup l).
Proof.
  intros Hget Hnd. repeat split.
  - intros n st'. unfold enableSkill. rewrite Hget. cbn [mbind option_bind].
    destruct (JS.includes n enabled) eqn:E; cbn [negb]; intros [= <-].
    + eauto.
    + rewrite getEnabledSkills_writeEnabled. eexists. split; [reflexivity|].
      apply NoDup_push; [assumption|]. now apply includes_false.
  - intros n st'. unfold disableSkill. rewrite Hget. cbn [mbind option_bind].
    intros [= <-]. rewrite getEnabledSkills_writeEnabled.
    eexists. split; [reflexivity|]. now apply NoDup_without.
  - intros names. unfold setEnabledSkillNames.
    rewrite getEnabledSkills_writeEnabled. eexists. split; [reflexivity|].
    apply NoDup_unique.
  - intros n m st'. unfold updateSkill_store.
    destruct (findSkill host n st) as [[skill|]|]; cbn [mbind option_bind];
      [|intros [= <-]; eauto|discriminate].
    destruct (negb (String.eqb m "") && negb (String.eqb m n));
      [|intros [= <-]; eauto].
    rewrite Hget. cbn [mbind option_bind].
    destruct (JS.includes n enabled); intros [= <-] Hm; [|eauto].
    rewrite getEnabledSkills_writeEnabled. eexists. split; [reflexivity|].
    apply NoDup_push; [now apply NoDup_without|].
    rewrite In_without. tauto.
Qed.

(** C10, at the failing input.  The enabled list holds [summarizer] and
    [old-skill], without duplicates; renaming the skill [summarizer] to
    [old-skill] with [updateSkill] writes a list that holds [old-skill]
    twice. *)
Theorem C10_rename_duplicates :
  getEnabledSkills staleStore = Some ["summarizer"; "old-skill"]
  /\ List.NoDup ["summarizer"; "old-skill"]
  /\ findSkill (sampleHost None) "old-skill" staleStore = Some None
  /\ exists st',
       updateSkill_store (sampleHost None) "summarizer" (Some "old-skill") staleStore
       = Some st'
       /\ getEnabledSkills st' = Some ["old-skill"; "old-skill"]
       /\ ~ List.NoDup ["old-skill"; "old-skill"].
Proof.
  split; [vm_compute; reflexivity|]. split.
  { constructor; [|constructor; [intros []|constructor]].
    cbn. intros [H|[]]. discriminate. }
  split; [vm_compute; reflexivity|].
  exists (writeEnabled ["old-skill"; "old-skill"] staleStore).
  split; [|split; [apply getEnabledSkills_writeEnabled|]].
  - unfold updateSkill_store.
    destruct (findSkill (sampleHost None) "summarizer" staleStore) as [[skill|]|] eqn:E;
      [|vm_compute in E; discriminate..].
    cbn [mbind option_bind].
    replace (getEnabledSkills staleStore) with (Some ["summarizer"; "old-skill"])
      by (symmetry; apply getEnabledSkills_writeEnabled).
    reflexivity.
  - intros H. inversion H as [|x l Hx Hl]; subst. apply Hx. now left.
Qed.

(** ** C7: the remove-skills-folder tool *)

(** The tool refuses, with an error message and without touching the
    store, a path that is not among the configured ones (compared exactly)
    and the removal of the only folder; otherwise it removes the path by
    [removeSkillsFolderPath]. *)
Lemma remove_tool_cases (host : Host) (st : Store) (p : string) (paths : list string) :
  getSkillsFolderPaths host st = Some paths ->
  exists msg st',
    RemoveSkillsFolder.tool host p st = Some (msg, st')
    /\ (~ In p paths \/ length paths = 1 ->
        st' = st /\ JS.startsWith "❌" msg = true)
    /\ (In p paths /\ length paths <> 1 ->
        removeSkillsFolderPath host p st = Some st'
        /\ JS.startsWith "✅" msg = true).
Proof.
  intros Hpaths. unfold RemoveSkillsFolder.tool. rewrite Hpaths.
  cbn [mbind option_bind].
  destruct (JS.includes p paths) eqn:Hin; cbn [negb].
  - apply includes_In in Hin.
    destruct (Nat.eqb (length paths) 1) eqn:Hlen.
    + apply Nat.eqb_eq in Hlen. eexists _, _. split; [reflexivity|].
      split; [intros _; split; reflexivity|]. intros [_ H]. contradiction.
    + apply Nat.eqb_neq in Hlen.
      unfold getSkillsFolderPaths in Hpaths.
      destruct (getSkillsFolders host st) as [folders|] eqn:Hf; [|discriminate].
      unfold removeSkillsFolderPath. rewrite Hf. cbn [mbind option_bind].
      unfold getAllSkills, getSkillsFolderPaths.
      rewrite getSkillsFolders_writeFolders. cbn [mbind option_bind].
      destruct (mapM _ _); eexists _, _; (split; [reflexivity|]);
        (split; [intros [H|H]; contradiction|intros _; split; reflexivity]).
  - apply includes_false in Hin. eexists _, _. split; [reflexivity|].
    split; [intros _; split; reflexivity|]. intros [H _]. contradiction.
Qed.

(** C7, at the failing input.  With the folders [/Skills] and [/skills]
    configured (a list that editing and adding folders produces from the
    empty store), the tool run on
    [/skills] passes both guards and removes both entries: no folder
    remains. *)
Theorem C7_no_folder_remains :
  (exists st1 st2,
      updateSkillsFolderPath (sampleHost None) "/home/u/.claude/skills" "/Skills" None ∅
      = Some (true, st1)
      /\ addSkillsFolderPath (sampleHost None) "/more" None st1 = Some st2
      /\ updateSkillsFolderPath (sampleHost None) "/more" "/skills" None st2
         = Some (true, twoSpellings))
  /\ getSkillsFolderPaths (sampleHost None) twoSpellings = Some ["/Skills"; "/skills"]
  /\ exists msg st',
       RemoveSkillsFolder.tool (sampleHost None) "/skills" twoSpellings = Some (msg, st')
       /\ JS.startsWith "✅" msg = true
       /\ getSkillsFolders (sampleHost None) st' = Some [].
Proof.
  split.
  { exists (writeFolders [{| folder_path := "/Skills"; folder_label := None |}] ∅),
           (writeFolders [{| folder_path := "/Skills"; folder_label := None |};
                          {| folder_path := "/more"; folder_label := None |}]
              (writeFolders [{| folder_path := "/Skills"; folder_label := None |}] ∅)).
    split; [reflexivity|]. split.
    - unfold addSkillsFolderPath.
      rewrite getSkillsFolders_writeFolders. reflexivity.
    - unfold updateSkillsFolderPath. rewrite getSkillsFolders_writeFolders.
      cbn [mbind option_bind].
      match goal with
      | |- context [findIndex ?f ?l] =>
          replace (findIndex f l) with (Some 1) by reflexivity
      end.
      unfold twoSpellings, writeFolders.
      rewrite !insert_insert_eq. reflexivity. }
  assert (Hpaths : getSkillsFolderPaths (sampleHost None) twoSpellings
                   = Some ["/Skills"; "/skills"]).
  { unfold getSkillsFolderPaths, twoSpellings.
    now rewrite getSkillsFolders_writeFolders. }
  split; [exact Hpaths|].
  destruct (remove_tool_cases (sampleHost None) twoSpellings "/skills"
              ["/Skills"; "/skills"] Hpaths) as (msg & st' & Htool & _ & Hrem).
  exists msg, st'. split; [assumption|].
  destruct Hrem as [Hrem Hmsg]; [split; [right; now left|discriminate]|].
  split; [assumption|].
  unfold removeSkillsFolderPath in Hrem.
  replace (getSkillsFolders (sampleHost None) twoSpellings)
    with (Some [{| folder_path := "/Skills"; folder_label := None |};
                {| folder_path := "/skills"; folder_label := None |}]) in Hrem
    by (symmetry; apply getSkillsFolders_writeFolders).
  cbn [mbind option_bind] in Hrem. injection Hrem as <-.
  rewrite getSkillsFolders_writeFolders. reflexivity.
Qed.

(** ** Paths without a traversal segment *)

Lemma splitChar_nonempty sep s : JS.splitChar sep s <> [].
Proof.
  destruct s as [|c s]; cbn [JS.splitChar]; [discriminate|].
  destruct (Ascii.eqb c sep); [discriminate|].
  destruct (JS.splitChar sep s); discriminate.
Qed.

Lemma splitChar_app sep a b :
  JS.splitChar sep (a +:+ String sep b) = JS.splitChar sep a ++ JS.splitChar sep b.
Proof.
  induction a as [|c a IH]; simpl.
  - now rewrite Ascii.eqb_refl.
  - destruct (Ascii.eqb c sep); rewrite IH; [reflexivity|].
    pose proof (splitChar_nonempty sep a).
    destruct (JS.splitChar sep a); [contradiction|reflexivity].
Qed.

(** A segment of a split string holds no separator. *)
Lemma splitChar_segment sep s w :
  In w (JS.splitChar sep s) -> JS.splitChar sep w = [w].
Proof.
  revert w. induction s as [|c s IH]; intros w; cbn [JS.splitChar].
  - intros [<-|[]]. reflexivity.
  - destruct (Ascii.eqb c sep) eqn:Hc.
    + intros [<-|H]; [reflexivity|now apply IH].
    + pose proof (splitChar_nonempty sep s) as Hne.
      destruct (JS.splitChar sep s) as [|w0 ws] eqn:E; [contradiction|].
      intros [<-|H].
      * cbn [JS.splitChar]. rewrite Hc, (IH w0) by now left. reflexivity.
      * apply IH. now right.
Qed.

Lemma splitChar_join sep segs :
  segs <> [] ->
  (forall w, In w segs -> JS.splitChar sep w = [w]) ->
  JS.splitChar sep (JS.join (String sep "") segs) = segs.
Proof.
  unfold JS.join. induction segs as [|s segs IH]; [congruence|].
  intros _ Hseg. destruct segs as [|t segs].
  - cbn [String.concat]. apply Hseg. now left.
  - change (String.concat (String sep "") (s :: t :: segs))
      with (s +:+ String sep (String.concat (String sep "") (t :: segs))).
    rewrite splitChar_app, IH, (Hseg s); [reflexivity|now left|discriminate|].
    intros w Hw. apply Hseg. now right.
Qed.



(** ** C9: the set-skills-folder tool *)

Lemma getAllSkills_total host st folders :
  getSkillsFolders host st = Some folders ->
  exists skills, getAllSkills host st = Some skills.
Proof.
  intros H. unfold getAllSkills, getSkillsFolderPaths. rewrite H.
  cbn [mbind option_bind]. destruct (mapM _ _); eauto.
Qed.



Example roundtrip_ex :
  parseSkillMarkdown (sampleHost None)
    (skillMarkdown (sampleHost None) "my-skill" "Does things" "  Body
")
  = Some {| parsed_metadata :=
              {| meta_name := "my-skill"; meta_description := "Does things" |};
            parsed_content := "Body" |}.
Proof. vm_compute. reflexivity. Qed.

Example set_folder_ex :
  option_map (fun r => getEnabledSkills (snd r))
    (SetSkillsFolder.tool (sampleHost None) "/more" oneDisabled)
  = Some (Some ["summarizer"; "translator"]).
Proof. vm_compute. reflexivity. Qed.

(** ** The skills [getAllSkills] returns *)





(** ** C1 and C4: the use-skills tool *)


(** What the tool returns once a routing model is configured and some
    skill is enabled: one request is sent, and the reply of the AI service
    (or its failure) decides the text. *)
Lemma tool_routes (host : Host) (request : string) (st : Store) (model : string)
    (skills : list ClaudeSkill) :
  getRoutingModel st = Some model ->
  getEnabledSkillObjects host st = Some skills ->
  skills <> [] ->
  UseSkills.tool host request st
  = Some (match AI_ask host (UseSkills.routingPrompt skills request) model with
          | Some response =>
              let k := JS.stripQuotes (JS.trim response) in
              if String.eqb (JS.toUpperCase k) "NONE" then
                UseSkills.formatNoMatchMessage skills
              else if String.eqb k "" then UseSkills.formatNoMatchMessage skills
              else match List.find (matchesName k) skills with
                   | Some s => UseSkills.formatSkillResponse s
                   | None => UseSkills.formatNoMatchMessage skills
                   end
          | None => UseSkills.formatNoMatchMessage skills
          end,
          [(UseSkills.routingPrompt skills request, model)]).
Proof.
  intros Hmodel Hskills Hne. unfold UseSkills.tool.
  rewrite Hmodel, Hskills. cbn [mbind option_bind].
  destruct skills as [|s0 rest] eqn:Es; [congruence|]. rewrite <- Es in *.
  replace (Nat.eqb (length skills) 0) with false by (now rewrite Es).
  unfold UseSkills.selectSkillWithAI.
  destruct (AI_ask host _ model) as [response|]; [|reflexivity].
  cbv zeta. destruct (String.eqb (JS.toUpperCase _) "NONE"); [reflexivity|].
  destruct (String.eqb _ ""); [reflexivity|].
  destruct (List.find _ skills); reflexivity.
Qed.




(** C4.  A run of the tool (on a store whose lists are well typed, or
    with no routing model) returns, having sent at most one request to the
    AI service: none when no routing model is configured (setup text) or
    no skill is enabled (guidance text), and exactly one otherwise; when
    that request fails the tool returns the no-match guidance and sends
    nothing more. *)
Theorem C4_at_most_one_request (host : Host) (request : string) (st : Store) :
  getRoutingModel st = None
  \/ (exists skills, getEnabledSkillObjects host st = Some skills) ->
  exists reply sent,
    UseSkills.tool host request st = Some (reply, sent)
    /\ length sent <= 1
    /\ (getRoutingModel st = None ->
        sent = [] /\ reply = UseSkills.setupRequiredMessage)
    /\ (forall model,
           getRoutingModel st = Some model ->
           getEnabledSkillObjects host st = Some [] ->
           sent = [] /\ reply = UseSkills.noSkillsEnabledMessage)
    /\ (forall model skills,
           getRoutingModel st = Some model ->
           getEnabledSkillObjects host st = Some skills ->
           skills <> [] ->
           sent = [(UseSkills.routingPrompt skills request, model)]
           /\ (AI_ask host (UseSkills.routingPrompt skills request) model = None ->
               reply = UseSkills.formatNoMatchMessage skills)).
Proof.
  intros Hwt.
  destruct (getRoutingModel st) as [model|] eqn:Hmodel.
  - destruct Hwt as [Hwt|[skills Hskills]]; [discriminate|].
    destruct skills as [|s0 rest] eqn:Es.
    + exists UseSkills.noSkillsEnabledMessage, [].
      split; [unfold UseSkills.tool; now rewrite Hmodel, Hskills|].
      rewrite Hskills. cbn [length]. split; [lia|]. split; [discriminate|].
      split; [auto|]. intros model' skills' _ [= <-]. congruence.
    + rewrite <- Es in *. assert (Hne : skills <> []) by (rewrite Es; discriminate).
      rewrite (tool_routes host request st model skills Hmodel Hskills Hne).
      rewrite Hskills.
      eexists _, _. split; [reflexivity|]. cbn [length].
      split; [lia|]. split; [discriminate|]. split.
      * intros model' _ [= E]. contradiction.
      * intros model' skills' [= <-] [= <-] _. split; [reflexivity|].
        intros ->. reflexivity.
  - exists UseSkills.setupRequiredMessage, [].
    split; [unfold UseSkills.tool; now rewrite Hmodel|].
    cbn [length]. split; [lia|]. split; [auto|]. split; discriminate.
Qed.

Lemma C4_at_most_one_request_witness :
  (exists skills, getEnabledSkillObjects (sampleHost None) sampleStore = Some skills)
  /\ exists reply sent,
       UseSkills.tool (sampleHost None) "to French" sampleStore = Some (reply, sent)
       /\ length sent <= 1.
Proof.
  assert (H : exists skills,
             getEnabledSkillObjects (sampleHost None) sampleStore = Some skills).
  { eexists. vm_compute. reflexivity. }
  split; [exact H|].
  destruct (C4_at_most_one_request (sampleHost None) "to French" sampleStore (or_intror H))
    as (reply & sent & Htool & Hlen & _).
  exists reply, sent. split; assumption.
Defined.

Example use_skills_failure_ex :
  option_map (fun r => (String.eqb (fst r)
                          (UseSkills.formatNoMatchMessage
                             (default [] (getEnabledSkillObjects (sampleHost None) sampleStore))),
                        length (snd r)))
    (UseSkills.tool (sampleHost None) "to French" sampleStore)
  = Some (true, 1).
Proof. vm_compute. reflexivity. Qed.

(** ** C2: the skill file format *)





(** ** C3: writing a skill and reading it back *)

(** C3, at the failing input.  The name [a---b] is a valid skill name,
    and neither the description [d] nor the content [c] holds three
    dashes; [createSkill] writes the file shown, and [parseSkillMarkdown]
    returns null on it: it takes the dashes inside the name for the closing
    delimiter, so that the frontmatter it parses has no description. *)
Theorem C3_roundtrip_fails_on_dashes :
  validSkillName "a---b" = true
  /\ JS.indexOf "---" 0 "d" = None
  /\ JS.indexOf "---" 0 "c" = None
  /\ option_map snd (createSkill (sampleHost None) "a---b" "d" "c" None sampleStore)
     = Some [Mkdir "/skills/a---b";
             WriteFile "/skills/a---b/SKILL.md"
               (skillMarkdown (sampleHost None) "a---b" "d" "c")]
  /\ skillMarkdown (sampleHost None) "a---b" "d" "c"
     = "---
name: a---b
description: d
---

c"
  /\ JS.indexOf "---" 3 (skillMarkdown (sampleHost None) "a---b" "d" "c") = Some 11
  /\ YAML_parse (sampleHost None)
       (JS.trim (JS.substring 3 11 (skillMarkdown (sampleHost None) "a---b" "d" "c")))
     = Some (VObj [("name", VStr "a")])
  /\ parseSkillMarkdown (sampleHost None) (skillMarkdown (sampleHost None) "a---b" "d" "c")
     = None.
Proof.
  split; [reflexivity|]. split; [reflexivity|]. split; [reflexivity|].
  repeat split; vm_compute; reflexivity.
Qed.

(** *** When the round trip holds *)

Lemma append_cons x (a b : string) : String x a +:+ b = String x (a +:+ b).
Proof. reflexivity. Qed.

Lemma append_nil_l (b : string) : "" +:+ b = b.
Proof. reflexivity. Qed.

Lemma substring_0_0 s : String.substring 0 0 s = "".
Proof. destruct s; reflexivity. Qed.

Lemma append_assoc (a b c : string) : (a +:+ b) +:+ c = a +:+ (b +:+ c).
Proof.
  induction a as [|x a IH]; [reflexivity|]. now rewrite !append_cons, IH.
Qed.








(** * Further properties *)

(** ** The folder list *)

Lemma getSkillsFolderPaths_writeFolders host folders st :
  getSkillsFolderPaths host (writeFolders folders st) = Some (map folder_path folders).
Proof. unfold getSkillsFolderPaths. now rewrite getSkillsFolders_writeFolders. Qed.

Lemma getRoutingModel_writeFolders folders st :
  getRoutingModel (writeFolders folders st) = getRoutingModel st.
Proof.
  unfold getRoutingModel, writeFolders. now rewrite lookup_insert_ne by discriminate.
Qed.

Lemma getRoutingModel_writeEnabled names st :
  getRoutingModel (writeEnabled names st) = getRoutingModel st.
Proof.
  unfold getRoutingModel, writeEnabled. now rewrite lookup_insert_ne by discriminate.
Qed.

(** X1. [setSkillsFolderPath] replaces whatever folder list was stored,
    well formed or not, by the one path; the first folder then reads as
    that path, or as the default under the home directory when the path is
    empty.  The enabled skills and the routing model are left alone. *)
Theorem setSkillsFolderPath_replaces_all (host : Host) (p : string) (st : Store) :
  getSkillsFolders host (setSkillsFolderPath p st)
  = Some [{| folder_path := p; folder_label := None |}]
  /\ getSkillsFolderPaths host (setSkillsFolderPath p st) = Some [p]
  /\ getSkillsFolderPath host (setSkillsFolderPath p st)
     = Some (if String.eqb p "" then
               if String.eqb (homeDir host) "" then ""
               else Path.join [homeDir host; ".claude"; "skills"]
             else p)
  /\ getEnabledSkills (setSkillsFolderPath p st) = getEnabledSkills st
  /\ getRoutingModel (setSkillsFolderPath p st) = getRoutingModel st.
Proof.
  unfold setSkillsFolderPath. repeat split.
  - apply getSkillsFolders_writeFolders.
  - apply getSkillsFolderPaths_writeFolders.
  - unfold getSkillsFolderPath. rewrite getSkillsFolderPaths_writeFolders.
    cbn [map folder_path mbind option_bind].
    destruct (String.eqb p ""); cbn [negb]; [|reflexivity].
    now destruct (String.eqb (homeDir host) "").
  - apply getEnabledSkills_writeFolders.
  - apply getRoutingModel_writeFolders.
Qed.








Lemma samePath_true a b :
  samePathIgnoringCase a b = true <-> JS.toLowerCase a = JS.toLowerCase b.
Proof. unfold samePathIgnoringCase. apply String.eqb_eq. Qed.








Lemma filter_none {A} (q : A -> bool) (l : list A) :
  (forall x, In x l -> q x = true) -> List.filter q l = l.
Proof.
  induction l as [|x l IH]; cbn [List.filter]; [reflexivity|]. intros H.
  rewrite (H x) by now left. f_equal. apply IH. intros y Hy. apply H. now right.
Qed.

Lemma filter_filter_same {A} (q : A -> bool) (l : list A) :
  List.filter q (List.filter q l) = List.filter q l.
Proof. apply filter_none. intros x Hx. now apply filter_In in Hx. Qed.



(** ** The list of enabled skills *)

(** X6. How enabling and disabling a skill compose.  Enabling twice is
    enabling once; disabling after enabling gives the list without the
    name, which is the former list when the name was not in it; disabling
    removes every occurrence of the name, so disabling twice is disabling
    once; enabling after disabling puts the name last, once. *)
Theorem enable_disable_compose (st : Store) (n : string) (enabled : list string) :
  getEnabledSkills st = Some enabled ->
  let others := List.filter (fun name => negb (String.eqb name n)) enabled in
  (exists st1,
      enableSkill n st = Some st1
      /\ enableSkill n st1 = Some st1
      /\ exists st2,
           disableSkill n st1 = Some st2
           /\ getEnabledSkills st2 = Some others
           /\ (~ In n enabled -> getEnabledSkills st2 = Some enabled))
  /\ (exists st1,
         disableSkill n st = Some st1
         /\ getEnabledSkills st1 = Some others
         /\ ~ In n others
         /\ (exists st2,
                disableSkill n st1 = Some st2 /\ getEnabledSkills st2 = Some others)
         /\ exists st2,
              enableSkill n st1 = Some st2
              /\ getEnabledSkills st2 = Some (others ++ [n])).
Proof.
  intros Hget others.
  assert (Hnot : ~ In n others).
  { intros H. apply In_without in H. tauto. }
  assert (Hnew : ~ In n enabled -> others = enabled).
  { intros Hno. apply filter_none. intros x Hx. apply negb_true_iff, String.eqb_neq.
    intros ->. contradiction. }
  split.
  - unfold enableSkill at 1. rewrite Hget. cbn [mbind option_bind].
    destruct (JS.includes n enabled) eqn:Hin; cbn [negb].
    + exists st. split; [reflexivity|]. split.
      * unfold enableSkill. rewrite Hget. cbn [mbind option_bind]. now rewrite Hin.
      * unfold disableSkill. rewrite Hget. cbn [mbind option_bind].
        eexists. split; [reflexivity|].
        split; [apply getEnabledSkills_writeEnabled|].
        intros Hno. apply includes_In in Hin. contradiction.
    + eexists. split; [reflexivity|]. split.
      * unfold enableSkill. rewrite getEnabledSkills_writeEnabled.
        cbn [mbind option_bind]. now rewrite includes_push_same.
      * unfold disableSkill. rewrite getEnabledSkills_writeEnabled.
        cbn [mbind option_bind]. eexists. split; [reflexivity|].
        rewrite getEnabledSkills_writeEnabled, List.filter_app.
        cbn [List.filter]. rewrite String.eqb_refl. cbn [negb]. rewrite app_nil_r.
        split; [reflexivity|]. intros Hno. f_equal. now apply Hnew.
  - unfold disableSkill at 1. rewrite Hget. cbn [mbind option_bind].
    eexists. split; [reflexivity|].
    split; [apply getEnabledSkills_writeEnabled|]. split; [exact Hnot|]. split.
    + unfold disableSkill. rewrite getEnabledSkills_writeEnabled.
      cbn [mbind option_bind]. eexists. split; [reflexivity|].
      rewrite getEnabledSkills_writeEnabled. f_equal. apply filter_filter_same.
    + unfold enableSkill. rewrite getEnabledSkills_writeEnabled.
      cbn [mbind option_bind]. fold others.
      rewrite (proj2 (includes_false n others) Hnot). cbn [negb].
      eexists. split; [reflexivity|]. apply getEnabledSkills_writeEnabled.
Qed.

Lemma enable_disable_compose_witness :
  exists st1,
    disableSkill "summarizer" sampleStore = Some st1
    /\ getEnabledSkills st1 = Some ["translator"]
    /\ exists st2,
         enableSkill "summarizer" st1 = Some st2
         /\ getEnabledSkills st2 = Some ["translator"; "summarizer"].
Proof.
  assert (Hget : getEnabledSkills sampleStore = Some ["summarizer"; "translator"])
    by apply getEnabledSkills_writeEnabled.
  destruct (enable_disable_compose sampleStore "summarizer" _ Hget)
    as (_ & st1 & H1 & H2 & _ & _ & st2 & H3 & H4).
  exists st1. split; [assumption|]. split; [exact H2|].
  exists st2. split; [assumption|exact H4].
Defined.

(** X7. [setEnabledSkillNames] overwrites the enabled list, whatever the
    store held: the list then reads as the given names without repeats, in
    order of first appearance, a skill is enabled exactly when its name was
    given, and the empty list disables every skill.  Of two calls in a row
    the last one decides. *)
Theorem setEnabledSkillNames_reads_back (names : list string) (st : Store) :
  getEnabledSkills (setEnabledSkillNames names st) = Some (JS.unique names)
  /\ List.NoDup (JS.unique names)
  /\ (forall m, isSkillEnabled m (setEnabledSkillNames names st)
                = Some (JS.includes m names))
  /\ (forall m, isSkillEnabled m (setEnabledSkillNames [] st) = Some false)
  /\ (forall names', setEnabledSkillNames names (setEnabledSkillNames names' st)
                     = setEnabledSkillNames names st).
Proof.
  unfold setEnabledSkillNames. repeat split.
  - apply getEnabledSkills_writeEnabled.
  - apply NoDup_unique.
  - intros m. unfold isSkillEnabled. rewrite getEnabledSkills_writeEnabled.
    cbn [mbind option_bind]. f_equal.
    destruct (JS.includes m names) eqn:E.
    + apply includes_In. apply In_unique. now apply includes_In.
    + apply includes_false. rewrite In_unique. now apply includes_false.
  - intros m. unfold isSkillEnabled. now rewrite getEnabledSkills_writeEnabled.
  - intros names'. unfold writeEnabled. apply insert_insert_eq.
Qed.

(** X8. A stored list of enabled skills that is not a JSON document reads
    as the empty list, so that no skill is enabled; the next call of
    [enableSkill] or [disableSkill] replaces the text by a well-formed
    list. *)
Theorem corrupt_enabled_list_is_repaired (st : Store) (raw n : string) :
  st !! ENABLED_SKILLS_KEY = Some raw ->
  JSON.parse raw = None ->
  getEnabledSkills st = Some []
  /\ (forall m, isSkillEnabled m st = Some false)
  /\ (exists st',
         enableSkill n st = Some st'
         /\ getEnabledSkills st' = Some [n]
         /\ st' !! ENABLED_SKILLS_KEY = Some (JSON.stringify (VArr [VStr n])))
  /\ (exists st',
         disableSkill n st = Some st'
         /\ getEnabledSkills st' = Some []
         /\ st' !! ENABLED_SKILLS_KEY = Some "[]").
Proof.
  intros Hraw Hparse.
  assert (Hget : getEnabledSkills st = Some []).
  { unfold getEnabledSkills. rewrite Hraw, Hparse. now destruct (String.eqb raw ""). }
  split; [exact Hget|]. split; [|split].
  - intros m. unfold isSkillEnabled. now rewrite Hget.
  - unfold enableSkill. rewrite Hget. cbn [mbind option_bind JS.includes existsb negb app].
    eexists. split; [reflexivity|]. split; [apply getEnabledSkills_writeEnabled|].
    unfold writeEnabled. now rewrite lookup_insert_eq.
  - unfold disableSkill. rewrite Hget. cbn [mbind option_bind List.filter].
    eexists. split; [reflexivity|]. split; [apply getEnabledSkills_writeEnabled|].
    unfold writeEnabled. now rewrite lookup_insert_eq.
Qed.

Lemma corrupt_enabled_list_is_repaired_witness :
  getEnabledSkills corruptStore = Some []
  /\ exists st',
       enableSkill "translator" corruptStore = Some st'
       /\ getEnabledSkills st' = Some ["translator"].
Proof.
  assert (H1 : corruptStore !! ENABLED_SKILLS_KEY = Some "summarizer,translator")
    by reflexivity.
  assert (H2 : JSON.parse "summarizer,translator" = None) by reflexivity.
  destruct (corrupt_enabled_list_is_repaired corruptStore _ "translator" H1 H2)
    as (Ha & _ & (st' & Hb & Hc & _) & _).
  split; [assumption|]. exists st'. split; assumption.
Defined.

(** ** The routing model *)

(** X9. The routing model reads back as it was set, except that the empty
    string reads as no model; clearing it gives no model.  With no model,
    the use-skills tool answers with the setup instructions and sends
    nothing to the AI service.  Setting or clearing the model touches
    neither the enabled skills nor the folder list. *)
Theorem routing_model_set_get_clear (host : Host) (request model : string) (st : Store) :
  getRoutingModel (setRoutingModel model st)
  = (if String.eqb model "" then None else Some model)
  /\ getRoutingModel (clearRoutingModel st) = None
  /\ getRoutingModel (clearRoutingModel (setRoutingModel model st)) = None
  /\ UseSkills.tool host request (clearRoutingModel st)
     = Some (UseSkills.setupRequiredMessage, [])
  /\ UseSkills.tool host request (setRoutingModel "" st)
     = Some (UseSkills.setupRequiredMessage, [])
  /\ getEnabledSkills (setRoutingModel model st) = getEnabledSkills st
  /\ getSkillsFolders host (setRoutingModel model st) = getSkillsFolders host st
  /\ getEnabledSkills (clearRoutingModel st) = getEnabledSkills st
  /\ getSkillsFolders host (clearRoutingModel st) = getSkillsFolders host st.
Proof.
  assert (Hset : forall m, getRoutingModel (setRoutingModel m st)
                           = if String.eqb m "" then None else Some m).
  { intros m. unfold getRoutingModel, setRoutingModel. rewrite lookup_insert_eq.
    now destruct (String.eqb m ""). }
  assert (Hclear : forall s, getRoutingModel (clearRoutingModel s) = None).
  { intros s. unfold getRoutingModel, clearRoutingModel. now rewrite lookup_delete_eq. }
  repeat split.
  - apply Hset.
  - apply Hclear.
  - apply Hclear.
  - unfold UseSkills.tool. now rewrite Hclear.
  - unfold UseSkills.tool. now rewrite Hset.
  - unfold getEnabledSkills, setRoutingModel. now rewrite lookup_insert_ne by discriminate.
  - unfold getSkillsFolders, setRoutingModel. now rewrite lookup_insert_ne by discriminate.
  - unfold getEnabledSkills, clearRoutingModel. now rewrite lookup_delete_ne by discriminate.
  - unfold getSkillsFolders, clearRoutingModel. now rewrite lookup_delete_ne by discriminate.
Qed.

(** ** Every writer keeps to its key *)

(** X10. The functions that edit the folder list change no other key of
    the store, and the functions that edit the list of enabled skills
    change no other key: editing folders never enables or disables a
    skill, and enabling or disabling never changes the folders searched
    nor the skills found. *)
Theorem writers_keep_to_their_key (host : Host) (st : Store) :
  (forall p label st',
      addSkillsFolderPath host p label st = Some st' ->
      forall key, key <> SKILLS_FOLDER_KEY -> st' !! key = st !! key)
  /\ (forall p st',
         removeSkillsFolderPath host p st = Some st' ->
         forall key, key <> SKILLS_FOLDER_KEY -> st' !! key = st !! key)
  /\ (forall p q label r st',
         updateSkillsFolderPath host p q label st = Some (r, st') ->
         forall key, key <> SKILLS_FOLDER_KEY -> st' !! key = st !! key)
  /\ (forall n st',
         enableSkill n st = Some st' ->
         (forall key, key <> ENABLED_SKILLS_KEY -> st' !! key = st !! key)
         /\ getAllSkills host st' = getAllSkills host st)
  /\ (forall n st',
         disableSkill n st = Some st' ->
         (forall key, key <> ENABLED_SKILLS_KEY -> st' !! key = st !! key)
         /\ getAllSkills host st' = getAllSkills host st)
  /\ (forall names,
         (forall key, key <> ENABLED_SKILLS_KEY ->
                      setEnabledSkillNames names st !! key = st !! key)
         /\ getAllSkills host (setEnabledSkillNames names st) = getAllSkills host st).
Proof.
  assert (HF : forall folders key, key <> SKILLS_FOLDER_KEY ->
                                   writeFolders folders st !! key = st !! key).
  { intros folders key Hk. unfold writeFolders. now rewrite lookup_insert_ne. }
  assert (HE : forall names key, key <> ENABLED_SKILLS_KEY ->
                                 writeEnabled names st !! key = st !! key).
  { intros names key Hk. unfold writeEnabled. now rewrite lookup_insert_ne. }
  split; [|split; [|split; [|split; [|split]]]].
  - intros p label st'. unfold addSkillsFolderPath.
    destruct (getSkillsFolders host st) as [folders|]; cbn [mbind option_bind];
      [|discriminate].
    destruct (negb _); intros [= <-]; auto.
  - intros p st'. unfold removeSkillsFolderPath.
    destruct (getSkillsFolders host st) as [folders|]; cbn [mbind option_bind];
      [|discriminate].
    intros [= <-]; auto.
  - intros p q label r st'. unfold updateSkillsFolderPath.
    destruct (getSkillsFolders host st) as [folders|]; cbn [mbind option_bind];
      [|discriminate].
    destruct (findIndex _ folders); intros [= <- <-]; auto.
  - intros n st'. unfold enableSkill.
    destruct (getEnabledSkills st) as [enabled|]; cbn [mbind option_bind];
      [|discriminate].
    destruct (negb _); intros [= <-]; auto using getAllSkills_writeEnabled.
  - intros n st'. unfold disableSkill.
    destruct (getEnabledSkills st) as [enabled|]; cbn [mbind option_bind];
      [|discriminate].
    intros [= <-]; auto using getAllSkills_writeEnabled.
  - intros names. unfold setEnabledSkillNames. auto using getAllSkills_writeEnabled.
Qed.

(** ** Skills on disk *)

Lemma trimEnd_cons c r :
  JS.trimEnd (String c r)
  = match JS.trimEnd r with
    | EmptyString => if JS.isWhiteSpace c then EmptyString else String c EmptyString
    | r' => String c r'
    end.
Proof. reflexivity. Qed.

Lemma trimStart_idem s : JS.trimStart (JS.trimStart s) = JS.trimStart s.
Proof.
  induction s as [|c r IH]; cbn [JS.trimStart]; [reflexivity|].
  destruct (JS.isWhiteSpace c) eqn:E; [assumption|].
  cbn [JS.trimStart]. now rewrite E.
Qed.

Lemma trimEnd_idem s : JS.trimEnd (JS.trimEnd s) = JS.trimEnd s.
Proof.
  induction s as [|c r IH]; [reflexivity|]. rewrite trimEnd_cons.
  destruct (JS.trimEnd r) as [|y t] eqn:Ht.
  - destruct (JS.isWhiteSpace c) eqn:E; [reflexivity|].
    rewrite trimEnd_cons. cbn [JS.trimEnd]. now rewrite E.
  - rewrite trimEnd_cons, IH. reflexivity.
Qed.

Lemma trimEnd_trimStart s : JS.trimEnd (JS.trimStart s) = JS.trimStart (JS.trimEnd s).
Proof.
  induction s as [|c r IH]; [reflexivity|]. cbn [JS.trimStart]. rewrite trimEnd_cons.
  destruct (JS.isWhiteSpace c) eqn:E.
  - rewrite IH. destruct (JS.trimEnd r); [reflexivity|].
    cbn [JS.trimStart]. now rewrite E.
  - rewrite trimEnd_cons. destruct (JS.trimEnd r); cbn [JS.trimStart]; now rewrite E.
Qed.

(** Trimming is idempotent. *)
Lemma trim_idem s : JS.trim (JS.trim s) = JS.trim s.
Proof.
  unfold JS.trim. rewrite trimEnd_trimStart, trimEnd_idem. apply trimStart_idem.
Qed.

Lemma parseSkillMarkdown_content host text r :
  parseSkillMarkdown host text = Some r -> JS.trim (parsed_content r) = parsed_content r.
Proof.
  unfold parseSkillMarkdown.
  destruct (negb (JS.startsWith "---" text)); [discriminate|].
  destruct (JS.indexOf "---" 3 text) as [e|]; [|discriminate].
  destruct (YAML_parse host _) as [parsed|]; [|discriminate].
  destruct (negb (truthy parsed) || negb (typeofObject parsed)); [discriminate|].
  destruct (getProperty "name" parsed) as [[]|]; try discriminate.
  destruct (getProperty "description" parsed) as [[]|]; try discriminate.
  intros [= <-]. cbn [parsed_content]. apply trim_idem.
Qed.

Lemma loadSkill_spec host folder entry s :
  loadSkill host folder entry = Some (Some s) ->
  skill_name s = dirent_name entry
  /\ skill_path s = Path.join [folder; dirent_name entry]
  /\ skill_skillMdPath s = Path.join [skill_path s; "SKILL.md"]
  /\ fs_access host (skill_skillMdPath s) = true
  /\ (exists text,
         fs_readFile host (skill_skillMdPath s) = Some text
         /\ parseSkillMarkdown host text
            = Some {| parsed_metadata := skill_metadata s;
                      parsed_content := skill_content s |})
  /\ meta_name (skill_metadata s) <> ""
  /\ meta_description (skill_metadata s) <> ""
  /\ ~ In "SKILL.md" (skill_supportingFiles s)
  /\ (forall f, In f (skill_supportingFiles s) ->
                fs_statIsFile host (Path.join [skill_path s; f]) = Some true).
Proof.
  unfold loadSkill.
  destruct (negb (dirent_isDirectory entry)); [discriminate|].
  destruct (negb (fs_access host _)) eqn:Hacc; [discriminate|].
  apply negb_false_iff in Hacc.
  destruct (fs_readFile host _) as [text|] eqn:Hread; cbn [mbind option_bind];
    [|discriminate].
  destruct (parseSkillMarkdown host text) as [parsed|] eqn:Hparse; [|discriminate].
  destruct (String.eqb (meta_name (parsed_metadata parsed)) "") eqn:Hn;
    [discriminate|].
  destruct (String.eqb (meta_description (parsed_metadata parsed)) "") eqn:Hd;
    [discriminate|].
  cbn [orb]. destruct (fs_readdir host _) as [allFiles|]; cbn [mbind option_bind];
    [|discriminate].
  intros [= <-]. cbn [skill_name skill_path skill_skillMdPath skill_metadata
                        skill_content skill_supportingFiles meta_name meta_description].
  apply String.eqb_neq in Hn. apply String.eqb_neq in Hd.
  repeat split; try assumption.
  - exists text. split; [assumption|]. rewrite Hparse.
    now destruct parsed as [[]].
  - intros Hin. apply filter_In in Hin as [_ Hin]. discriminate.
  - intros f Hin. apply filter_In in Hin as [_ Hin].
    apply andb_prop in Hin as [_ Hin].
    now destruct (fs_statIsFile host _) as [[]|].
Qed.

Lemma mapM_In_omap {A B} (f : A -> option (option B)) (l : list A) loaded (y : B) :
  mapM f l = Some loaded -> In y (omap id loaded) -> exists x, In x l /\ f x = Some (Some y).
Proof.
  revert loaded. induction l as [|x l IH]; intros loaded; cbn [mapM].
  - intros [= <-] [].
  - destruct (f x) as [o|] eqn:Hx; cbn [mbind option_bind]; [|discriminate].
    destruct (mapM f l) as [rest|]; cbn [mbind option_bind mret option_ret];
      [|discriminate].
    intros [= <-]. cbn [omap list_omap id]. destruct o as [z|].
    + intros [<-|Hin].
      * exists x. split; [now left|assumption].
      * destruct (IH rest eq_refl Hin) as (x' & Hx' & E). exists x'. split; [now right|assumption].
    + intros Hin. destruct (IH rest eq_refl Hin) as (x' & Hx' & E).
      exists x'. split; [now right|assumption].
Qed.

Lemma mapM_In_concat {A B} (f : A -> option (list B)) (l : list A) perItem (y : B) :
  mapM f l = Some perItem -> In y (concat perItem) ->
  exists x ys, In x l /\ f x = Some ys /\ In y ys.
Proof.
  revert perItem. induction l as [|x l IH]; intros perItem; cbn [mapM].
  - intros [= <-] [].
  - destruct (f x) as [ys|] eqn:Hx; cbn [mbind option_bind]; [|discriminate].
    destruct (mapM f l) as [rest|]; cbn [mbind option_bind mret option_ret];
      [|discriminate].
    intros [= <-]. cbn [concat]. intros Hin. apply in_app_or in Hin as [Hin|Hin].
    + exists x, ys. split; [now left|]. split; assumption.
    + destruct (IH rest eq_refl Hin) as (x' & ys' & Hx' & E & Hy).
      exists x', ys'. split; [now right|]. split; assumption.
Qed.

Lemma getAllSkills_In_loadSkill host st skills s :
  getAllSkills host st = Some skills ->
  In s skills ->
  exists folders folder entry,
    getSkillsFolderPaths host st = Some folders
    /\ In folder folders
    /\ fs_access host folder = true
    /\ loadSkill host folder entry = Some (Some s).
Proof.
  unfold getAllSkills.
  destruct (getSkillsFolderPaths host st) as [folders|]; cbn [mbind option_bind];
    [|discriminate].
  destruct (mapM (loadFolder host) folders) as [perFolder|] eqn:Hmap;
    intros [= <-] Hin; [|destruct Hin].
  destruct (mapM_In_concat _ _ _ _ Hmap Hin) as (folder & found & Hfolder & Hload & Hs).
  unfold loadFolder in Hload.
  destruct (negb (fs_access host folder)) eqn:Hacc.
  { injection Hload as <-. destruct Hs. }
  apply negb_false_iff in Hacc.
  destruct (fs_readdir host folder) as [entries|]; cbn [mbind option_bind] in Hload;
    [|discriminate].
  destruct (mapM (loadSkill host folder) entries) as [loaded|] eqn:Hloaded;
    cbn [mbind option_bind] in Hload; [|discriminate].
  injection Hload as <-.
  destruct (mapM_In_omap _ _ _ _ Hloaded Hs) as (entry & _ & Hentry).
  exists folders, folder, entry. auto.
Qed.

(** X11. What holds of every skill that [getAllSkills] returns: its name
    and description in the metadata are not empty; its content has no
    white space at either end; it lies in a configured, accessible folder,
    in the directory of its name; SKILL.md lies in that directory, is
    readable and parses to the metadata and content of the skill; SKILL.md
    is not among the supporting files, each of which is a regular file of
    the directory. *)
Theorem loaded_skill_invariants (host : Host) (st : Store)
    (skills : list ClaudeSkill) (s : ClaudeSkill) :
  getAllSkills host st = Some skills ->
  In s skills ->
  meta_name (skill_metadata s) <> ""
  /\ meta_description (skill_metadata s) <> ""
  /\ JS.trim (skill_content s) = skill_content s
  /\ (exists folders folder,
         getSkillsFolderPaths host st = Some folders
         /\ In folder folders
         /\ fs_access host folder = true
         /\ skill_path s = Path.join [folder; skill_name s])
  /\ skill_skillMdPath s = Path.join [skill_path s; "SKILL.md"]
  /\ (exists text,
         fs_readFile host (skill_skillMdPath s) = Some text
         /\ parseSkillMarkdown host text
            = Some {| parsed_metadata := skill_metadata s;
                      parsed_content := skill_content s |})
  /\ ~ In "SKILL.md" (skill_supportingFiles s)
  /\ (forall f, In f (skill_supportingFiles s) ->
                fs_statIsFile host (Path.join [skill_path s; f]) = Some true).
Proof.
  intros Hall Hin.
  destruct (getAllSkills_In_loadSkill _ _ _ _ Hall Hin)
    as (folders & folder & entry & Hpaths & Hfolder & Hacc & Hentry).
  apply loadSkill_spec in Hentry
    as (Hname & Hpath & Hmd & _ & (text & Hread & Hparse) & Hn & Hd & Hsup & Hfiles).
  repeat split; try assumption.
  - apply parseSkillMarkdown_content in Hparse. exact Hparse.
  - exists folders, folder. rewrite Hname. auto.
  - exists text. auto.
Qed.

Lemma loaded_skill_invariants_witness :
  exists s,
    In s (default [] (getAllSkills (sampleHost None) sampleStore))
    /\ skill_name s = "translator"
    /\ meta_name (skill_metadata s) <> ""
    /\ JS.trim (skill_content s) = skill_content s.
Proof.
  set (skills := default [] (getAllSkills (sampleHost None) sampleStore)).
  assert (Hall : getAllSkills (sampleHost None) sampleStore = Some skills)
    by (vm_compute; reflexivity).
  assert (Hs : exists s, In s skills /\ skill_name s = "translator").
  { vm_compute. eexists. split; [right; left; reflexivity|reflexivity]. }
  destruct Hs as (s & Hin & Hname). exists s.
  destruct (loaded_skill_invariants (sampleHost None) sampleStore skills s Hall Hin)
    as (Hn & _ & Hc & _).
  repeat split; assumption.
Defined.

Lemma mapM_snoc {A B} (f : A -> option B) (l : list A) (x : A) :
  mapM f (l ++ [x])
  = match mapM f l, f x with
    | Some ys, Some y => Some (ys ++ [y])
    | _, _ => None
    end.
Proof.
  induction l as [|a l IH]; cbn [app mapM].
  - destruct (f x); reflexivity.
  - destruct (f a) as [b|]; cbn [mbind option_bind]; [|reflexivity].
    rewrite IH. destruct (mapM f l), (f x); reflexivity.
Qed.

Lemma mapM_In_None {A B} (f : A -> option B) (l : list A) (x : A) :
  In x l -> f x = None -> mapM f l = None.
Proof.
  intros Hin Hx. induction l as [|a l IH]; [destruct Hin|]. cbn [mapM].
  destruct Hin as [->|Hin].
  - now rewrite Hx.
  - rewrite (IH Hin). now destruct (f a).
Qed.

(** X12. A configured folder that cannot be accessed is skipped without
    an error: adding such a folder to the list changes nothing in the
    skills that [getAllSkills] finds. *)
Theorem inaccessible_folder_is_skipped (host : Host) (st st' : Store) (p : string)
    (label : option string) :
  fs_access host p = false ->
  addSkillsFolderPath host p label st = Some st' ->
  getAllSkills host st' = getAllSkills host st.
Proof.
  intros Hacc. unfold addSkillsFolderPath.
  destruct (getSkillsFolders host st) as [folders|] eqn:Hget; cbn [mbind option_bind];
    [|discriminate].
  destruct (negb _); intros [= <-]; [|reflexivity].
  unfold getAllSkills. rewrite getSkillsFolderPaths_writeFolders.
  unfold getSkillsFolderPaths. rewrite Hget. cbn [mbind option_bind].
  rewrite map_app. cbn [map folder_path]. rewrite mapM_snoc.
  unfold loadFolder at 2. rewrite Hacc. cbn [negb].
  destruct (mapM (loadFolder host) (map folder_path folders)); [|reflexivity].
  now rewrite concat_app, app_nil_r.
Qed.

Lemma inaccessible_folder_is_skipped_witness :
  exists st',
    addSkillsFolderPath (sampleHost None) "/missing" None sampleStore = Some st'
    /\ getAllSkills (sampleHost None) st' = getAllSkills (sampleHost None) sampleStore.
Proof.
  assert (Hget : getSkillsFolders (sampleHost None) sampleStore
                 = Some [{| folder_path := "/skills"; folder_label := None |}]).
  { unfold sampleStore. rewrite getSkillsFolders_writeEnabled.
    apply getSkillsFolders_writeFolders. }
  assert (Hadd : exists st', addSkillsFolderPath (sampleHost None) "/missing" None
                               sampleStore = Some st').
  { unfold addSkillsFolderPath. rewrite Hget. eexists. reflexivity. }
  destruct Hadd as (st' & Hadd). exists st'. split; [assumption|].
  apply (inaccessible_folder_is_skipped (sampleHost None) sampleStore st' "/missing" None);
    [reflexivity|assumption].
Defined.

(** X13. One failure hides every skill.  When a configured folder can be
    accessed but not listed (the path is a file, say), or holds a skill
    directory whose SKILL.md can be accessed but not read, [getAllSkills]
    returns the empty list, also for the skills of the other folders, and
    no skill is offered to the router. *)
Theorem unreadable_folder_hides_all_skills (host : Host) (st : Store)
    (paths enabled : list string) (folder : string) :
  getSkillsFolderPaths host st = Some paths ->
  getEnabledSkills st = Some enabled ->
  In folder paths ->
  fs_access host folder = true ->
  fs_readdir host folder = None
  \/ (exists entries e,
         fs_readdir host folder = Some entries
         /\ In e entries
         /\ dirent_isDirectory e = true
         /\ fs_access host (Path.join [Path.join [folder; dirent_name e]; "SKILL.md"])
            = true
         /\ fs_readFile host (Path.join [Path.join [folder; dirent_name e]; "SKILL.md"])
            = None) ->
  getAllSkills host st = Some []
  /\ getEnabledSkillObjects host st = Some [].
Proof.
  intros Hpaths Hen Hin Hacc Hfail.
  assert (Hload : loadFolder host folder = None).
  { unfold loadFolder. rewrite Hacc. cbn [negb].
    destruct Hfail as [->|(entries & e & -> & He & Hdir & Hmd & Hread)];
      [reflexivity|].
    cbn [mbind option_bind].
    rewrite (mapM_In_None (loadSkill host folder) entries e He); [reflexivity|].
    unfold loadSkill. rewrite Hdir, Hmd, Hread. reflexivity. }
  assert (Hall : getAllSkills host st = Some []).
  { unfold getAllSkills. rewrite Hpaths. cbn [mbind option_bind].
    now rewrite (mapM_In_None (loadFolder host) paths folder Hin Hload). }
  split; [exact Hall|].
  unfold getEnabledSkillObjects. rewrite Hen, Hall. reflexivity.
Qed.

Lemma unreadable_folder_hides_all_skills_witness :
  getAllSkills
    (memoryHost (("/notes.txt", "a file") :: sampleFiles) sampleDirs (fun _ _ => None))
    (writeFolders [{| folder_path := "/skills"; folder_label := None |};
                   {| folder_path := "/notes.txt"; folder_label := None |}] ∅)
  = Some [].
Proof.
  refine (proj1 (unreadable_folder_hides_all_skills _ _ ["/skills"; "/notes.txt"] []
                   "/notes.txt" _ _ _ _ _)).
  - apply getSkillsFolderPaths_writeFolders.
  - rewrite getEnabledSkills_writeFolders. reflexivity.
  - right. left. reflexivity.
  - reflexivity.
  - left. reflexivity.
Defined.

Lemma includes_without x y l :
  JS.includes x (List.filter (fun n => negb (String.eqb n y)) l)
  = JS.includes x l && negb (String.eqb x y).
Proof.
  destruct (String.eqb x y) eqn:E.
  - apply String.eqb_eq in E. subst y. rewrite includes_without_same.
    now rewrite andb_false_r.
  - apply String.eqb_neq in E. rewrite (includes_without_other _ _ _ E).
    now rewrite andb_true_r.
Qed.

Lemma filter_andb {A} (a b : A -> bool) (l : list A) :
  List.filter (fun x => a x && b x) l = List.filter b (List.filter a l).
Proof.
  induction l as [|x l IH]; cbn [List.filter]; [reflexivity|].
  destruct (a x); cbn [andb List.filter]; [|assumption].
  destruct (b x); now rewrite IH.
Qed.

(** X14. The skills offered to the router follow the enabled list.  After
    [disableSkill] they are the former ones without the skills of that
    directory name; after [enableSkill] they are the skills found whose
    directory name was enabled or is the given name; after all names of
    the skills found are set as enabled, they are all the skills found, in
    the order found. *)
Theorem enabled_objects_follow_the_list (host : Host) (st : Store) (n : string)
    (enabled : list string) (skills : list ClaudeSkill) :
  getEnabledSkills st = Some enabled ->
  getAllSkills host st = Some skills ->
  let offered := List.filter (fun s => JS.includes (skill_name s) enabled) skills in
  getEnabledSkillObjects host st = Some offered
  /\ (exists st',
         disableSkill n st = Some st'
         /\ getEnabledSkillObjects host st'
            = Some (List.filter (fun s => negb (String.eqb (skill_name s) n)) offered))
  /\ (exists st',
         enableSkill n st = Some st'
         /\ getEnabledSkillObjects host st'
            = Some (List.filter
                      (fun s => JS.includes (skill_name s) enabled
                                || String.eqb (skill_name s) n) skills))
  /\ getEnabledSkillObjects host (setEnabledSkillNames (map skill_name skills) st)
     = Some skills.
Proof.
  intros Hen Hall offered.
  assert (Hobj : forall names,
             getEnabledSkillObjects host (writeEnabled names st)
             = Some (List.filter (fun s => JS.includes (skill_name s) names) skills)).
  { intros names. unfold getEnabledSkillObjects.
    rewrite getEnabledSkills_writeEnabled, getAllSkills_writeEnabled, Hall. reflexivity. }
  split; [|split; [|split]].
  - unfold getEnabledSkillObjects. rewrite Hen, Hall. reflexivity.
  - unfold disableSkill. rewrite Hen. cbn [mbind option_bind].
    eexists. split; [reflexivity|]. rewrite Hobj. f_equal.
    unfold offered. rewrite <- filter_andb. apply filter_ext.
    intros s. apply includes_without.
  - unfold enableSkill. rewrite Hen. cbn [mbind option_bind].
    destruct (JS.includes n enabled) eqn:Hin; cbn [negb].
    + exists st. split; [reflexivity|]. unfold getEnabledSkillObjects.
      rewrite Hen, Hall. cbn [mbind option_bind]. f_equal. apply filter_ext.
      intros s. destruct (String.eqb (skill_name s) n) eqn:E.
      * apply String.eqb_eq in E. rewrite E, Hin. reflexivity.
      * now rewrite orb_false_r.
    + eexists. split; [reflexivity|]. rewrite Hobj. f_equal. apply filter_ext.
      intros s. rewrite includes_app. cbn [JS.includes existsb]. now rewrite orb_false_r.
  - unfold setEnabledSkillNames. rewrite Hobj. f_equal. apply filter_none.
    intros s Hs. apply includes_In, In_unique, in_map, Hs.
Qed.

Lemma enabled_objects_follow_the_list_witness :
  exists st',
    disableSkill "translator" sampleStore = Some st'
    /\ option_map (map skill_name) (getEnabledSkillObjects (sampleHost None) st')
       = Some ["summarizer"].
Proof.
  set (skills := default [] (getAllSkills (sampleHost None) sampleStore)).
  assert (Hall : getAllSkills (sampleHost None) sampleStore = Some skills)
    by (vm_compute; reflexivity).
  assert (Hen : getEnabledSkills sampleStore = Some ["summarizer"; "translator"])
    by apply getEnabledSkills_writeEnabled.
  destruct (enabled_objects_follow_the_list (sampleHost None) sampleStore "translator"
              _ skills Hen Hall) as (_ & (st' & Hd & Hobj) & _).
  exists st'. split; [assumption|]. rewrite Hobj. vm_compute. reflexivity.
Defined.

(** X15. Reading the file SKILL.md of a skill found by name gives the
    text that the skill was loaded from: it parses to the metadata and the
    content of the skill.  For a name that no skill has, the call throws
    the not-found error. *)
Theorem readSupportingFile_skill_file (host : Host) (st : Store) (n : string)
    (found : option ClaudeSkill) :
  findSkill host n st = Some found ->
  match found with
  | Some s =>
      exists text,
        readSupportingFile host n "SKILL.md" st = Some (Returned text)
        /\ parseSkillMarkdown host text
           = Some {| parsed_metadata := skill_metadata s;
                     parsed_content := skill_content s |}
  | None =>
      forall fileName,
        readSupportingFile host n fileName st
        = Some (Thrown ("Skill " +:+ quoted n +:+ " not found"))
  end.
Proof.
  intros Hfind. unfold readSupportingFile. rewrite Hfind. cbn [mbind option_bind].
  destruct found as [s|]; [|reflexivity].
  unfold findSkill in Hfind.
  destruct (getAllSkills host st) as [skills|] eqn:Hall; cbn [mbind option_bind] in Hfind;
    [|discriminate].
  injection Hfind as Hfind. apply find_some in Hfind as [Hin _].
  destruct (getAllSkills_In_loadSkill _ _ _ _ Hall Hin)
    as (folders & folder & entry & _ & _ & _ & Hentry).
  apply loadSkill_spec in Hentry as (_ & _ & Hmd & Hacc & (text & Hread & Hparse) & _).
  rewrite <- Hmd, Hacc. cbn [negb]. rewrite Hread. cbn [mbind option_bind].
  exists text. split; [reflexivity|assumption].
Qed.

Lemma readSupportingFile_skill_file_witness :
  exists text,
    readSupportingFile (sampleHost None) "translate-text" "SKILL.md" sampleStore
    = Some (Returned text).
Proof.
  assert (Hs : exists s, findSkill (sampleHost None) "translate-text" sampleStore
                         = Some (Some s)).
  { vm_compute. eexists. reflexivity. }
  destruct Hs as (s & Hfind).
  destruct (readSupportingFile_skill_file (sampleHost None) sampleStore "translate-text"
              (Some s) Hfind) as (text & Hread & _).
  exists text. exact Hread.
Defined.

(** ** The use-skills tool *)



Lemma stripTrailingQuote_push k q :
  JS.isQuote q = true -> JS.stripTrailingQuote (k +:+ String q "") = k.
Proof.
  intros Hq. induction k as [|c r IH].
  - rewrite append_nil_l. cbn [JS.stripTrailingQuote]. now rewrite Hq.
  - rewrite append_cons. destruct r as [|d r'].
    + rewrite append_nil_l in *. cbn [JS.stripTrailingQuote]. now rewrite Hq.
    + rewrite append_cons in *. cbn [JS.stripTrailingQuote] in *. now rewrite IH.
Qed.

(** X17. A reply of the AI service that is, once trimmed, a text between
    two quote characters (double or single, not necessarily the same)
    selects the text between them, taken as it stands: white space inside
    the quotes is kept, and the text is dropped when it is NONE in any
    letter case. *)
Theorem quoted_reply_is_unquoted (host : Host) (skills : list ClaudeSkill)
    (request model response k : string) (q q' : ascii) :
  AI_ask host (UseSkills.routingPrompt skills request) model = Some response ->
  JS.trim response = String q (k +:+ String q' "") ->
  JS.isQuote q = true ->
  JS.isQuote q' = true ->
  UseSkills.selectSkillWithAI host skills request model
  = (if String.eqb (JS.toUpperCase k) "NONE" then None else Some k,
     [(UseSkills.routingPrompt skills request, model)]).
Proof.
  intros Hask Htrim Hq Hq'. unfold UseSkills.selectSkillWithAI. rewrite Hask, Htrim.
  unfold JS.stripQuotes. cbn [JS.stripLeadingQuote]. rewrite Hq.
  rewrite (stripTrailingQuote_push k q' Hq').
  now destruct (String.eqb (JS.toUpperCase k) "NONE").
Qed.

Lemma quoted_reply_is_unquoted_witness :
  UseSkills.selectSkillWithAI (sampleHost (Some " 'translate-text' ")) [] "to French" "m"
  = (Some "translate-text", [(UseSkills.routingPrompt [] "to French", "m")]).
Proof.
  apply (quoted_reply_is_unquoted (sampleHost (Some " 'translate-text' ")) [] "to French"
           "m" " 'translate-text' " "translate-text" "'"%char "'"%char);
    reflexivity.
Defined.

(** ** The skill file *)



(** ** Creating a skill *)











(** ** The confirmation of remove-skills-folder *)

(** X22. The confirmation of the remove-skills-folder tool is shown
    exactly when the path is in the configured list as written (letter
    case counts).  When none is shown the tool refuses and leaves the store
    as it is.  When the path is the only folder the confirmation is shown
    all the same, and the tool then refuses. *)
Theorem remove_folder_confirmation_vs_tool (host : Host) (st : Store) (p : string)
    (paths : list string) :
  getSkillsFolderPaths host st = Some paths ->
  (In p paths
   <-> exists c,
         removeSkillsFolderConfirmation host p st = Some (Some c)
         /\ confirmation_style c = Destructive
         /\ In ("Folder Path", p) (confirmation_info c))
  /\ (~ In p paths <-> removeSkillsFolderConfirmation host p st = Some None)
  /\ (removeSkillsFolderConfirmation host p st = Some None ->
      exists msg,
        RemoveSkillsFolder.tool host p st = Some (msg, st)
        /\ JS.startsWith "❌" msg = true)
  /\ (paths = [p] ->
      (exists c, removeSkillsFolderConfirmation host p st = Some (Some c))
      /\ exists msg,
           RemoveSkillsFolder.tool host p st = Some (msg, st)
           /\ JS.startsWith "❌" msg = true).
Proof.
  intros Hpaths.
  destruct (remove_tool_cases host st p paths Hpaths) as (msg & st' & Htool & Hrefuse & _).
  unfold removeSkillsFolderConfirmation. rewrite Hpaths. cbn [mbind option_bind].
  destruct (JS.includes p paths) eqn:Hin; cbn [negb].
  - apply includes_In in Hin. split; [|split; [|split]].
    + split; [|auto]. intros _. eexists. split; [reflexivity|].
      cbn [confirmation_style confirmation_info]. split; [reflexivity|now left].
    + split; [contradiction|discriminate].
    + discriminate.
    + intros ->. split; [eauto|]. destruct Hrefuse as [-> Hmsg]; [now right|]. eauto.
  - apply includes_false in Hin. split; [|split; [|split]].
    + split; [contradiction|]. intros (c & Hc & _). discriminate.
    + split; auto.
    + intros _. destruct Hrefuse as [-> Hmsg]; [now left|]. eauto.
    + intros ->. exfalso. apply Hin. now left.
Qed.

Lemma remove_folder_confirmation_vs_tool_witness :
  (exists c, removeSkillsFolderConfirmation (sampleHost None) "/skills" sampleStore
             = Some (Some c))
  /\ exists msg,
       RemoveSkillsFolder.tool (sampleHost None) "/skills" sampleStore
       = Some (msg, sampleStore)
       /\ JS.startsWith "❌" msg = true.
Proof.
  assert (Hpaths : getSkillsFolderPaths (sampleHost None) sampleStore = Some ["/skills"]).
  { unfold getSkillsFolderPaths, sampleStore.
    rewrite getSkillsFolders_writeEnabled, getSkillsFolders_writeFolders. reflexivity. }
  apply (remove_folder_confirmation_vs_tool (sampleHost None) sampleStore "/skills"
           ["/skills"] Hpaths).
  reflexivity.
Defined.

(** ** The set-skills-folder tool *)

Lemma normalizeSegments_rooted stack segs :
  ~ In ".." stack -> ~ In ".." (Path.normalizeSegments false stack segs).
Proof.
  revert stack. induction segs as [|seg segs IH]; intros stack Hno;
    cbn [Path.normalizeSegments].
  - now rewrite <- in_rev.
  - destruct (String.eqb seg "" || String.eqb seg "."); [now apply IH|].
    destruct (String.eqb seg "..") eqn:Hseg.
    + destruct stack as [|top below]; [now apply IH|].
      destruct (String.eqb top ".."); apply IH; [assumption|].
      intros H. apply Hno. now right.
    + apply IH. apply String.eqb_neq in Hseg. intros [H|H]; [congruence|contradiction].
Qed.

Lemma normalizeSegments_from allow stack segs w :
  In w (Path.normalizeSegments allow stack segs) -> In w stack \/ In w segs \/ w = "..".
Proof.
  revert stack. induction segs as [|seg segs IH]; intros stack;
    cbn [Path.normalizeSegments].
  - rewrite <- in_rev. tauto.
  - destruct (String.eqb seg "" || String.eqb seg ".").
    { intros H. apply IH in H. cbn [In]. tauto. }
    destruct (String.eqb seg "..").
    + destruct stack as [|top below].
      * destruct allow; intros H; apply IH in H; cbn [In] in *; intuition.
      * destruct (String.eqb top ".."); [destruct allow|]; intros H; apply IH in H;
          cbn [In] in *; intuition.
    + intros H. apply IH in H. cbn [In] in *. tauto.
Qed.

(** X23. The traversal check of the set-skills-folder tool never refuses
    an absolute path, whatever its segments: normalisation has resolved
    every [..] segment of an absolute path before the check looks for
    one. *)
Theorem absolute_path_passes_traversal_check (p : string) :
  JS.startsWith "/" p = true -> SetSkillsFolder.validatePathNoTraversal p = true.
Proof.
  intros Habs. unfold SetSkillsFolder.validatePathNoTraversal.
  apply negb_true_iff. apply not_true_is_false. intros Hex.
  apply existsb_exists in Hex as (w & Hw & E). apply String.eqb_eq in E. subst w.
  revert Hw. unfold Path.normalize, Path.sep. rewrite Habs. cbn [negb].
  destruct (String.eqb p ""); [cbn; intuition discriminate|].
  set (segs := Path.normalizeSegments false [] (JS.splitChar "/" p)).
  assert (Hin : ~ In ".." segs) by (apply normalizeSegments_rooted; intros []).
  assert (Hsplit : JS.join "/" segs <> "" ->
                   JS.splitChar "/" (JS.join "/" segs) = segs).
  { intros Hne. apply splitChar_join.
    - intros ->. now apply Hne.
    - intros w Hw. destruct (normalizeSegments_from _ _ _ _ Hw) as [[]|[H| ->]].
      + eapply splitChar_segment, H.
      + contradiction. }
  destruct (String.eqb (JS.join "/" segs) "") eqn:Hres.
  - cbn. intuition discriminate.
  - apply String.eqb_neq in Hres. specialize (Hsplit Hres).
    assert (Hin' : ~ In ".." (JS.splitChar "/" (JS.join "/" segs +:+ "/"))).
    { rewrite splitChar_app, Hsplit. rewrite in_app_iff. cbn.
      intuition discriminate. }
    assert (Hlead : forall x, JS.splitChar "/" ("/" +:+ x) = "" :: JS.splitChar "/" x)
      by reflexivity.
    destruct (Path.endsWithSlash p);
      rewrite ?Hlead, ?Hsplit; cbn [In]; intuition discriminate.
Qed.

Lemma absolute_path_passes_traversal_check_witness :
  SetSkillsFolder.validatePathNoTraversal "/skills/../../etc" = true.
Proof. apply absolute_path_passes_traversal_check. reflexivity. Defined.

(** X24. Running the set-skills-folder tool a second time on the same path
    changes nothing: after any run, successful or refused, a further run
    with the same path leaves the store exactly as the first run left
    it. *)
Theorem set_skills_folder_twice (host : Host) (p : string) (st st' : Store)
    (msg : string) :
  SetSkillsFolder.tool host p st = Some (msg, st') ->
  exists msg', SetSkillsFolder.tool host p st' = Some (msg', st').
Proof.
  unfold SetSkillsFolder.tool.
  destruct (negb (SetSkillsFolder.validatePathNoTraversal p)) eqn:Hv.
  { intros [= <- <-]. eauto. }
  destruct (negb (fs_existsSync host p)) eqn:Hex.
  { intros [= <- <-]. eauto. }
  destruct (fs_statSyncIsDirectory host p) as [isDir|] eqn:Hdir;
    cbn [mbind option_bind]; [|discriminate].
  destruct (negb isDir) eqn:HisDir.
  { intros [= <- <-]. eauto. }
  destruct (addSkillsFolderPath host p None st) as [st1|] eqn:Hadd;
    cbn [mbind option_bind]; [|discriminate].
  destruct (getSkillsFolderPaths host st1) as [allPaths|] eqn:Hpaths;
    cbn [mbind option_bind]; [|discriminate].
  destruct (getAllSkills host st1) as [skills|] eqn:Hall;
    cbn [mbind option_bind]; [|discriminate].
  destruct (getEnabledSkills st1) as [enabledNames|] eqn:Hen;
    cbn [mbind option_bind]; [|discriminate].
  intros [= _ <-].
  assert (Hadd' : addSkillsFolderPath host p None
                    (setEnabledSkillNames (map skill_name skills) st1)
                  = Some (setEnabledSkillNames (map skill_name skills) st1)).
  { unfold addSkillsFolderPath, setEnabledSkillNames.
    rewrite getSkillsFolders_writeEnabled.
    unfold addSkillsFolderPath in Hadd.
    destruct (getSkillsFolders host st) as [folders|] eqn:Hget;
      cbn [mbind option_bind] in Hadd; [|discriminate].
    destruct (existsb _ folders) eqn:Hhas; cbn [negb] in Hadd; injection Hadd as <-.
    - rewrite Hget. cbn [mbind option_bind]. now rewrite Hhas.
    - rewrite getSkillsFolders_writeFolders. cbn [mbind option_bind].
      rewrite existsb_app. cbn [existsb folder_path].
      replace (samePathIgnoringCase p p) with true
        by (symmetry; now apply samePath_true).
      now rewrite orb_true_r. }
  rewrite Hadd'. cbn [mbind option_bind]. unfold setEnabledSkillNames.
  unfold getSkillsFolderPaths in *. rewrite getSkillsFolders_writeEnabled.
  destruct (getSkillsFolders host st1) as [folders1|]; cbn [mbind option_bind] in *;
    [|discriminate].
  rewrite getAllSkills_writeEnabled, Hall. cbn [mbind option_bind].
  rewrite getEnabledSkills_writeEnabled. cbn [mbind option_bind].
  eexists. f_equal. f_equal. unfold writeEnabled. apply insert_insert_eq.
Qed.

Lemma set_skills_folder_returns host p st folders enabled isDir :
  getSkillsFolders host st = Some folders ->
  getEnabledSkills st = Some enabled ->
  fs_statSyncIsDirectory host p = Some isDir ->
  exists msg st', SetSkillsFolder.tool host p st = Some (msg, st').
Proof.
  intros Hget Hen Hdir. unfold SetSkillsFolder.tool.
  destruct (negb (SetSkillsFolder.validatePathNoTraversal p)); [eauto|].
  destruct (negb (fs_existsSync host p)); [eauto|].
  rewrite Hdir. cbn [mbind option_bind]. destruct (negb isDir); [eauto|].
  assert (Hadd : exists st1 folders1,
             addSkillsFolderPath host p None st = Some st1
             /\ getSkillsFolders host st1 = Some folders1
             /\ getEnabledSkills st1 = Some enabled).
  { unfold addSkillsFolderPath. rewrite Hget. cbn [mbind option_bind].
    destruct (negb _); [|eauto]. eexists. eexists. split; [reflexivity|].
    split; [apply getSkillsFolders_writeFolders|].
    now rewrite getEnabledSkills_writeFolders. }
  destruct Hadd as (st1 & folders1 & -> & Hget1 & Hen1). cbn [mbind option_bind].
  unfold getSkillsFolderPaths. rewrite Hget1. cbn [mbind option_bind].
  destruct (getAllSkills_total host st1 folders1 Hget1) as (skills & ->).
  cbn [mbind option_bind]. rewrite Hen1. cbn [mbind option_bind]. eauto.
Qed.

Lemma set_skills_folder_twice_witness :
  exists st' msg',
    SetSkillsFolder.tool (sampleHost None) "/more" st' = Some (msg', st').
Proof.
  destruct (set_skills_folder_returns (sampleHost None) "/more" oneDisabled
              [{| folder_path := "/skills"; folder_label := None |}] ["summarizer"] true)
    as (msg & st' & Hrun).
  - unfold oneDisabled. rewrite getSkillsFolders_writeEnabled.
    apply getSkillsFolders_writeFolders.
  - apply getEnabledSkills_writeEnabled.
  - reflexivity.
  - exists st'.
    exact (set_skills_folder_twice (sampleHost None) "/more" oneDisabled st' msg Hrun).
Defined.

(** ** The manage-skills command *)

Lemma isSkillEnabled_all_names (skills : list ClaudeSkill) (st : Store) (s : ClaudeSkill) :
  In s skills ->
  isSkillEnabled (skill_name s) (setEnabledSkillNames (map skill_name skills) st)
  = Some true.
Proof.
  intros Hs. unfold isSkillEnabled, setEnabledSkillNames.
  rewrite getEnabledSkills_writeEnabled. cbn [mbind option_bind]. f_equal.
  apply includes_In, In_unique, in_map, Hs.
Qed.

Lemma length_zero_nil {A} (l : list A) : Nat.eqb (length l) 0 = true <-> l = [].
Proof. destruct l; cbn; split; congruence. Qed.

Lemma loadSkills_unfold host st skills enabled :
  getAllSkills host st = Some skills ->
  getEnabledSkills st = Some enabled ->
  exists folders,
    getSkillsFolderPaths host st = Some folders
    /\ ManageSkills.loadSkills host st
       = let reenable := Nat.eqb (length enabled) 0 && Nat.ltb 0 (length skills) in
         Some ({| ManageSkills.view_skills := skills;
                  ManageSkills.view_enabledSkills :=
                    JS.unique (if reenable then map skill_name skills else enabled);
                  ManageSkills.view_skillsFolders := folders;
                  ManageSkills.view_routingModel := getRoutingModel st |},
               if reenable then setEnabledSkillNames (map skill_name skills) st else st).
Proof.
  intros Hall Hen. unfold ManageSkills.loadSkills. rewrite Hall, Hen.
  unfold getAllSkills in Hall.
  destruct (getSkillsFolderPaths host st) as [folders|]; [|discriminate].
  exists folders. split; reflexivity.
Qed.

(** X25. Loading the manage-skills command with an empty enabled list and
    at least one skill on disk enables every skill found; in every other
    case loading leaves the store as it is.  So disabling all skills does
    not last: the next load enables them all again. *)
Theorem loadSkills_enables_all_when_none (host : Host) (st : Store)
    (skills : list ClaudeSkill) (enabled : list string) :
  getAllSkills host st = Some skills ->
  getEnabledSkills st = Some enabled ->
  (exists view st',
      ManageSkills.loadSkills host st = Some (view, st')
      /\ ManageSkills.view_skills view = skills
      /\ (enabled = [] -> skills <> [] ->
          getEnabledSkills st' = Some (JS.unique (map skill_name skills))
          /\ ManageSkills.view_enabledSkills view = JS.unique (map skill_name skills)
          /\ forall s, In s skills -> isSkillEnabled (skill_name s) st' = Some true)
      /\ (enabled <> [] \/ skills = [] ->
          st' = st /\ ManageSkills.view_enabledSkills view = JS.unique enabled))
  /\ (skills <> [] ->
      forall view,
      exists view' st',
        ManageSkills.loadSkills host (snd (ManageSkills.setAllSkillsEnabled false view st))
        = Some (view', st')
        /\ forall s, In s skills -> isSkillEnabled (skill_name s) st' = Some true).
Proof.
  intros Hall Hen. split.
  - destruct (loadSkills_unfold host st skills enabled Hall Hen) as (folders & _ & ->).
    cbv zeta. eexists. eexists. split; [reflexivity|].
    cbn [ManageSkills.view_skills ManageSkills.view_enabledSkills].
    split; [reflexivity|]. split.
    + intros -> Hne. destruct skills as [|s0 skills']; [contradiction|].
      cbn [length Nat.eqb Nat.ltb Nat.leb andb]. unfold setEnabledSkillNames at 1.
      split; [apply getEnabledSkills_writeEnabled|]. split; [reflexivity|].
      intros s Hs. now apply isSkillEnabled_all_names.
    + intros [Hne| ->].
      * destruct enabled; [contradiction|]. cbn [length Nat.eqb andb]. auto.
      * cbn [length Nat.ltb Nat.leb]. rewrite andb_false_r. auto.
  - intros Hne view. unfold ManageSkills.setAllSkillsEnabled. cbn [snd].
    unfold setEnabledSkillNames at 1. cbn [JS.unique JS.uniqueFrom].
    assert (Hall' : getAllSkills host (writeEnabled [] st) = Some skills)
      by now rewrite getAllSkills_writeEnabled.
    destruct (loadSkills_unfold host _ skills [] Hall'
                (getEnabledSkills_writeEnabled [] st)) as (folders & _ & ->).
    destruct skills as [|s0 skills']; [contradiction|].
    cbv zeta. cbn [length Nat.eqb Nat.ltb Nat.leb andb].
    eexists. eexists. split; [reflexivity|].
    intros s Hs. now apply isSkillEnabled_all_names.
Qed.

Lemma loadSkills_enables_all_when_none_witness :
  exists view' st',
    ManageSkills.loadSkills (sampleHost None)
      (snd (ManageSkills.setAllSkillsEnabled false
              {| ManageSkills.view_skills := [];
                 ManageSkills.view_enabledSkills := ["summarizer"; "translator"];
                 ManageSkills.view_skillsFolders := ["/skills"];
                 ManageSkills.view_routingModel := None |} sampleStore))
    = Some (view', st')
    /\ forall s, In s (default [] (getAllSkills (sampleHost None) sampleStore)) ->
                 isSkillEnabled (skill_name s) st' = Some true.
Proof.
  set (skills := default [] (getAllSkills (sampleHost None) sampleStore)).
  assert (Hall : getAllSkills (sampleHost None) sampleStore = Some skills)
    by (vm_compute; reflexivity).
  assert (Hen : getEnabledSkills sampleStore = Some ["summarizer"; "translator"])
    by apply getEnabledSkills_writeEnabled.
  apply (proj2 (loadSkills_enables_all_when_none (sampleHost None) sampleStore skills _
                  Hall Hen)).
  vm_compute. discriminate.
Defined.

Lemma In_setDelete x y s :
  In x (ManageSkills.setDelete y s) <-> In x s /\ x <> y.
Proof. apply In_without. Qed.

Lemma In_setAdd x y s : In x (ManageSkills.setAdd y s) <-> In x s \/ x = y.
Proof.
  unfold ManageSkills.setAdd. destruct (JS.includes y s) eqn:E.
  - apply includes_In in E. split; [tauto|]. intros [H| ->]; assumption.
  - rewrite in_app_iff. cbn [In]. intuition.
Qed.

(** X26. The handlers of the manage-skills command keep what the command
    shows in step with the store.  If the names shown as enabled are the
    names the store holds as enabled, the same is true after a skill is
    toggled and after all skills are enabled or disabled at once, and
    toggling a skill flips whether it is shown as enabled. *)
Theorem handlers_keep_view_in_sync (host : Host) (view : ManageSkills.View) (st : Store) :
  inSync view st ->
  (forall n,
      exists view' st',
        ManageSkills.toggleSkillEnabled n view st = Some (view', st')
        /\ inSync view' st'
        /\ (In n (ManageSkills.view_enabledSkills view')
            <-> ~ In n (ManageSkills.view_enabledSkills view))
        /\ forall m, m <> n ->
                     (In m (ManageSkills.view_enabledSkills view')
                      <-> In m (ManageSkills.view_enabledSkills view)))
  /\ (forall nextEnabled,
         inSync (fst (ManageSkills.setAllSkillsEnabled nextEnabled view st))
                (snd (ManageSkills.setAllSkillsEnabled nextEnabled view st)))
  /\ (forall view' st',
         ManageSkills.loadSkills host st = Some (view', st') -> inSync view' st').
Proof.
  intros (enabled & Hen & Hsync). split; [|split].
  - intros n. unfold ManageSkills.toggleSkillEnabled.
    destruct (JS.includes n (ManageSkills.view_enabledSkills view)) eqn:Hin.
    + apply includes_In in Hin. unfold disableSkill. rewrite Hen.
      cbn [mbind option_bind]. eexists. eexists. split; [reflexivity|].
      cbn [ManageSkills.view_enabledSkills]. split; [|split].
      * eexists. split; [apply getEnabledSkills_writeEnabled|].
        intros m. cbn [ManageSkills.view_enabledSkills].
        rewrite In_setDelete, In_without, Hsync. reflexivity.
      * rewrite In_setDelete. tauto.
      * intros m Hm. rewrite In_setDelete. tauto.
    + apply includes_false in Hin. unfold enableSkill. rewrite Hen.
      cbn [mbind option_bind].
      assert (Hno : JS.includes n enabled = false).
      { apply includes_false. now rewrite <- Hsync. }
      rewrite Hno. cbn [negb]. eexists. eexists. split; [reflexivity|].
      cbn [ManageSkills.view_enabledSkills]. split; [|split].
      * eexists. split; [apply getEnabledSkills_writeEnabled|].
        intros m. cbn [ManageSkills.view_enabledSkills].
        rewrite In_setAdd, in_app_iff, Hsync. cbn [In]. intuition.
      * rewrite In_setAdd. tauto.
      * intros m Hm. rewrite In_setAdd. tauto.
  - intros nextEnabled. unfold ManageSkills.setAllSkillsEnabled. cbn [fst snd].
    eexists. unfold setEnabledSkillNames.
    split; [apply getEnabledSkills_writeEnabled|]. reflexivity.
  - intros view' st'. unfold ManageSkills.loadSkills.
    destruct (getAllSkills host st) as [skills|]; cbn [mbind option_bind];
      [|discriminate].
    destruct (getSkillsFolderPaths host st) as [folders|]; cbn [mbind option_bind];
      [|discriminate].
    rewrite Hen. cbn [mbind option_bind].
    destruct (Nat.eqb (length enabled) 0 && Nat.ltb 0 (length skills));
      intros [= <- <-]; cbn [ManageSkills.view_enabledSkills].
    + eexists. unfold setEnabledSkillNames.
      split; [apply getEnabledSkills_writeEnabled|]. reflexivity.
    + exists enabled. split; [assumption|]. intros m. apply In_unique.
Qed.

Lemma handlers_keep_view_in_sync_witness :
  exists view' st',
    ManageSkills.toggleSkillEnabled "summarizer"
      {| ManageSkills.view_skills := [];
         ManageSkills.view_enabledSkills := ["summarizer"; "translator"];
         ManageSkills.view_skillsFolders := ["/skills"];
         ManageSkills.view_routingModel := None |} sampleStore
    = Some (view', st')
    /\ inSync view' st'.
Proof.
  assert (Hsync : inSync
                    {| ManageSkills.view_skills := [];
                       ManageSkills.view_enabledSkills := ["summarizer"; "translator"];
                       ManageSkills.view_skillsFolders := ["/skills"];
                       ManageSkills.view_routingModel := None |} sampleStore).
  { exists ["summarizer"; "translator"].
    split; [apply getEnabledSkills_writeEnabled|reflexivity]. }
  destruct (proj1 (handlers_keep_view_in_sync (sampleHost None) _ _ Hsync) "summarizer")
    as (view' & st' & Ht & Hs & _).
  exists view', st'. split; assumption.
Defined.

(** ** The list of fast models *)

Lemma substring_prefix_decompose w s :
  String.substring 0 (String.length w) s = w -> exists b, s = w +:+ b.
Proof.
  revert s. induction w as [|c w IH]; intros s; cbn [String.length].
  - intros _. exists s. reflexivity.
  - destruct s as [|d s]; cbn [String.substring]; [discriminate|].
    intros [= -> H]. destruct (IH s H) as (b & ->). exists b. reflexivity.
Qed.

Lemma substring_decompose m w s :
  String.substring m (String.length w) s = w -> exists a b, s = a +:+ w +:+ b.
Proof.
  revert s. induction m as [|m IH]; intros s H.
  - destruct (substring_prefix_decompose w s H) as (b & ->). exists "", b. reflexivity.
  - destruct s as [|d s]; cbn [String.substring] in H.
    + exists "", "". rewrite <- H.
      destruct (String.length w); reflexivity.
    + destruct (IH s H) as (a & b & ->). exists (String d a), b. reflexivity.
Qed.

Lemma substring_occurrence a w b :
  String.substring (String.length a) (String.length w) (a +:+ w +:+ b) = w.
Proof.
  induction a as [|c a IH]; cbn [String.length].
  - rewrite append_nil_l. induction w as [|c w IHw]; cbn [String.length].
    + apply substring_0_0.
    + rewrite append_cons. cbn [String.substring]. now rewrite IHw.
  - rewrite append_cons. cbn [String.substring]. exact IH.
Qed.

Lemma contains_iff sub s :
  Models.contains sub s = true <-> exists a b, s = a +:+ sub +:+ b.
Proof.
  unfold Models.contains. split.
  - destruct (String.index 0 sub s) as [m|] eqn:E; [|discriminate]. intros _.
    apply String.index_correct1 in E. eapply substring_decompose, E.
  - intros (a & b & ->).
    destruct (String.index 0 sub (a +:+ sub +:+ b)) eqn:E; [reflexivity|].
    destruct sub as [|c sub].
    + destruct a; rewrite ?append_cons, ?append_nil_l in E; destruct b; discriminate.
    + exfalso.
      apply (String.index_correct3 0 (String.length a) _ _ E); [discriminate|lia|].
      apply substring_occurrence.
Qed.

Lemma contains_trans x sub s :
  Models.contains x sub = true -> Models.contains sub s = true ->
  Models.contains x s = true.
Proof.
  rewrite !contains_iff. intros (a & b & ->) (a' & b' & ->).
  exists (a' +:+ a), (b +:+ b'). now rewrite !append_assoc.
Qed.

Lemma mapChars_app f a b :
  JS.mapChars f (a +:+ b) = JS.mapChars f a +:+ JS.mapChars f b.
Proof.
  induction a as [|c a IH]; [reflexivity|].
  rewrite append_cons. cbn [JS.mapChars]. now rewrite IH, append_cons.
Qed.

Lemma mapChars_app_inv f s a b :
  JS.mapChars f s = a +:+ b ->
  exists a' b', s = a' +:+ b' /\ JS.mapChars f a' = a /\ JS.mapChars f b' = b.
Proof.
  revert s. induction a as [|c a IH]; intros s.
  - rewrite append_nil_l. intros H. exists "", s. auto.
  - rewrite append_cons. destruct s as [|d s]; cbn [JS.mapChars]; [discriminate|].
    intros [= Hc H]. destruct (IH s H) as (a' & b' & -> & Ha & Hb).
    exists (String d a'), b'. cbn [JS.mapChars]. rewrite Hc, Ha. auto.
Qed.

Lemma spaceBeforeDigits_app a b :
  Models.spaceBeforeDigits (a +:+ b)
  = Models.spaceBeforeDigits a +:+ Models.spaceBeforeDigits b.
Proof.
  induction a as [|c a IH]; [reflexivity|].
  rewrite append_cons. cbn [Models.spaceBeforeDigits].
  destruct (JSON.isDigit c); now rewrite IH, !append_cons.
Qed.

(** A character that is a letter once lowered is not an underscore, a
    digit or white space. *)
Lemma lowered_letter c :
  FlatYaml.isLetter (JS.lowerChar c) = true ->
  Ascii.eqb c "_" = false /\ JSON.isDigit c = false /\ JS.isWhiteSpace c = false.
Proof.
  destruct c as [[] [] [] [] [] [] [] []]; vm_compute; intros H;
    try discriminate H; auto.
Qed.

Lemma trimEnd_keep p c y :
  JS.isWhiteSpace c = false ->
  exists y', JS.trimEnd (p +:+ String c y) = p +:+ String c y'.
Proof.
  intros Hc. induction p as [|d p (y' & IH)].
  - rewrite append_nil_l, trimEnd_cons.
    destruct (JS.trimEnd y) as [|e r]; rewrite ?Hc; eauto.
  - exists y'. rewrite append_cons, trimEnd_cons, IH.
    destruct p; rewrite ?append_cons, ?append_nil_l; reflexivity.
Qed.

Lemma trimStart_keep x c z :
  JS.isWhiteSpace c = false ->
  exists x', JS.trimStart (x +:+ String c z) = x' +:+ String c z.
Proof.
  intros Hc. induction x as [|d x (x' & IH)].
  - exists "". rewrite !append_nil_l. cbn [JS.trimStart]. now rewrite Hc.
  - rewrite append_cons. cbn [JS.trimStart]. destruct (JS.isWhiteSpace d).
    + exists x'. exact IH.
    + exists (String d x). now rewrite append_cons.
Qed.

Lemma displayName_keeps_mini key :
  Models.contains "mini" (JS.toLowerCase key) = true ->
  Models.contains "mini"
    (JS.toLowerCase (JS.trim (Models.spaceBeforeDigits (Models.underscoresToSpaces key))))
  = true.
Proof.
  rewrite !contains_iff. intros (a & b & H). unfold JS.toLowerCase in *.
  apply mapChars_app_inv in H as (a0 & r0 & -> & _ & H).
  apply mapChars_app_inv in H as (w0 & b0 & -> & Hw & _).
  destruct w0 as [|c1 [|c2 [|c3 [|c4 [|c5 w0]]]]]; try discriminate Hw.
  cbn [JS.mapChars] in Hw. injection Hw as H1 H2 H3 H4.
  destruct (lowered_letter c1) as (U1 & D1 & W1); [now rewrite H1|].
  destruct (lowered_letter c2) as (U2 & D2 & _); [now rewrite H2|].
  destruct (lowered_letter c3) as (U3 & D3 & _); [now rewrite H3|].
  destruct (lowered_letter c4) as (U4 & D4 & W4); [now rewrite H4|].
  unfold Models.underscoresToSpaces. rewrite !mapChars_app. cbn [JS.mapChars].
  rewrite U1, U2, U3, U4, !spaceBeforeDigits_app. cbn [Models.spaceBeforeDigits].
  rewrite D1, D2, D3, D4.
  set (X := Models.spaceBeforeDigits (JS.mapChars _ a0)).
  set (Y := Models.spaceBeforeDigits (JS.mapChars _ b0)).
  change (X +:+ String c1 (String c2 (String c3 (String c4 ""))) +:+ Y)
    with (X +:+ String c1 (String c2 (String c3 (String c4 Y)))).
  unfold JS.trim.
  assert (HY : exists Y',
             JS.trimEnd (X +:+ String c1 (String c2 (String c3 (String c4 Y))))
             = X +:+ String c1 (String c2 (String c3 (String c4 Y')))).
  { destruct (trimEnd_keep (X +:+ String c1 (String c2 (String c3 ""))) c4 Y W4)
      as (Y' & HY).
    exists Y'. rewrite !append_assoc in HY. exact HY. }
  destruct HY as (Y' & ->).
  destruct (trimStart_keep X c1 (String c2 (String c3 (String c4 Y'))) W1) as (X' & ->).
  exists (JS.mapChars JS.lowerChar X'), (JS.mapChars JS.lowerChar Y').
  rewrite mapChars_app. cbn [JS.mapChars]. now rewrite H1, H2, H3, H4.
Qed.

Lemma fastModelOf_spec key m :
  Models.fastModelOf key = Some m ->
  Models.model_id m = key
  /\ existsb (fun kw => Models.contains kw (JS.toLowerCase key)) Models.EXCLUDE_KEYWORDS
     = false
  /\ (existsb (fun kw => Models.contains kw (JS.toLowerCase key))
        Models.FAST_KEYWORDS_fastest
      || existsb (fun kw => Models.contains kw (JS.toLowerCase key))
           Models.FAST_KEYWORDS_fast) = true
  /\ Models.model_tier m = Models.getSpeedTier key
  /\ Models.model_provider m = Models.getProvider key
  /\ Models.model_description m
     = Models.generateDescription (Models.model_name m) (Models.model_tier m)
  /\ Models.model_name m
     = JS.trim (Models.spaceBeforeDigits (Models.underscoresToSpaces key)).
Proof.
  unfold Models.fastModelOf.
  destruct (JS.startsWith _ key || _ || _ || _ || _); [discriminate|].
  destruct (existsb _ Models.EXCLUDE_KEYWORDS); [discriminate|].
  destruct (existsb _ Models.FAST_KEYWORDS_fastest || existsb _ Models.FAST_KEYWORDS_fast);
    [|discriminate].
  cbn [negb]. intros [= <-]. cbn. repeat split.
Qed.

Lemma fast_keyword_mini s :
  existsb (fun kw => Models.contains kw s) Models.FAST_KEYWORDS_fast = true ->
  Models.contains "mini" s = true.
Proof.
  intros H. apply existsb_exists in H as (kw & Hkw & H).
  apply (contains_trans "mini" kw s); [|assumption].
  cbn [In Models.FAST_KEYWORDS_fast] in Hkw.
  destruct Hkw as [<-|[<-|[<-|[<-|[<-|[]]]]]]; reflexivity.
Qed.

(** X27. What holds of every model that [getFastModels] lists.  Its id is
    a key of [AI.Model] and determines the whole entry; the id, in lower
    case, holds none of the excluded keywords; the tier is fastest exactly
    when it holds one of flash, lite, haiku and nano; otherwise it holds
    mini, and so does the displayed name, so that the description of a model
    of the fast tier is always the one for mini models: the last fallback
    description is never used. *)
Theorem fast_models_classified (AI_Model : list string) (m : Models.FastModel) :
  In m (Models.getFastModels AI_Model) ->
  In (Models.model_id m) AI_Model
  /\ Models.fastModelOf (Models.model_id m) = Some m
  /\ (forall kw, In kw Models.EXCLUDE_KEYWORDS ->
                 Models.contains kw (JS.toLowerCase (Models.model_id m)) = false)
  /\ (Models.model_tier m = Models.Fastest
      <-> exists kw, In kw Models.FAST_KEYWORDS_fastest
                     /\ Models.contains kw (JS.toLowerCase (Models.model_id m)) = true)
  /\ (Models.model_tier m = Models.Fast ->
      Models.contains "mini" (JS.toLowerCase (Models.model_id m)) = true
      /\ Models.contains "mini" (JS.toLowerCase (Models.model_name m)) = true
      /\ Models.model_description m
         = "Fast and intelligent model for everyday tasks. Great balance of speed and quality.")
  /\ Models.model_description m <> "Fast model optimized for efficient routing.".
Proof.
  unfold Models.getFastModels. intros Hin.
  apply list_elem_of_In, list_elem_of_omap in Hin as (key & Hkey & Hm).
  apply list_elem_of_In in Hkey.
  destruct (fastModelOf_spec key m Hm) as (Hid & Hex & Hfast & Htier & _ & Hdesc & Hname).
  rewrite Hid. split; [assumption|]. split; [assumption|]. split.
  { intros kw Hkw. apply not_true_is_false. intros Hc.
    assert (existsb (fun kw => Models.contains kw (JS.toLowerCase key))
              Models.EXCLUDE_KEYWORDS = true) as Habs; [|congruence].
    apply existsb_exists. eauto. }
  assert (Hmini : Models.model_tier m = Models.Fast ->
                  Models.contains "mini" (JS.toLowerCase key) = true).
  { rewrite Htier. unfold Models.getSpeedTier. intros Ht.
    destruct (existsb _ Models.FAST_KEYWORDS_fastest); [discriminate|].
    now apply fast_keyword_mini. }
  assert (Hfastdesc : Models.model_tier m = Models.Fast ->
                      Models.model_description m
                      = "Fast and intelligent model for everyday tasks. Great balance of speed and quality.").
  { intros Ht. rewrite Hdesc, Ht, Hname. cbn [Models.generateDescription].
    now rewrite (displayName_keeps_mini key (Hmini Ht)). }
  split; [|split].
  - rewrite Htier. unfold Models.getSpeedTier.
    destruct (existsb _ Models.FAST_KEYWORDS_fastest) eqn:E.
    + split; [|reflexivity]. intros _. apply existsb_exists in E. exact E.
    + split.
      * destruct (existsb _ Models.FAST_KEYWORDS_fast); discriminate.
      * intros H. apply existsb_exists in H. congruence.
  - intros Ht. split; [now apply Hmini|]. split; [|now apply Hfastdesc].
    rewrite Hname. now apply displayName_keeps_mini, Hmini.
  - destruct (Models.model_tier m) eqn:Ht.
    + rewrite Hdesc, ?Ht. cbn [Models.generateDescription].
      destruct (Models.contains "flash" _); [discriminate|].
      destruct (Models.contains "haiku" _); [discriminate|].
      destruct (Models.contains "nano" _); discriminate.
    + rewrite (Hfastdesc eq_refl). discriminate.
Qed.

Lemma fast_models_classified_witness :
  exists m,
    In m (Models.getFastModels
            ["OpenAI_GPT4o-mini"; "Google_Gemini_2.5_Pro"; "Google_Gemini_2.5_Flash_Lite"])
    /\ Models.model_id m = "OpenAI_GPT4o-mini"
    /\ Models.model_name m = "OpenAI GPT 4o-mini"
    /\ Models.model_description m
       = "Fast and intelligent model for everyday tasks. Great balance of speed and quality.".
Proof.
  set (keys := ["OpenAI_GPT4o-mini"; "Google_Gemini_2.5_Pro"; "Google_Gemini_2.5_Flash_Lite"]).
  assert (Hm : exists m, In m (Models.getFastModels keys)
                         /\ Models.model_id m = "OpenAI_GPT4o-mini"
                         /\ Models.model_name m = "OpenAI GPT 4o-mini"
                         /\ Models.model_tier m = Models.Fast).
  { vm_compute. eexists. split; [left; reflexivity|]. repeat split. }
  destruct Hm as (m & Hin & Hid & Hname & Htier). exists m.
  destruct (fast_models_classified keys m Hin) as (_ & _ & _ & _ & Hfast & _).
  destruct (Hfast Htier) as (_ & _ & Hdesc). auto.
Defined.

(** X28. [getModelById] finds every listed model by its id, and finds
    nothing else: the answer for an id is a listed model of that id, and
    there is none exactly when no listed model has the id. *)
Theorem getModelById_finds_listed (AI_Model : list string) :
  (forall m, In m (Models.FAST_MODELS AI_Model) ->
             Models.getModelById AI_Model (Models.model_id m) = Some m)
  /\ (forall id m, Models.getModelById AI_Model id = Some m ->
                   In m (Models.FAST_MODELS AI_Model) /\ Models.model_id m = id)
  /\ (forall id, Models.getModelById AI_Model id = None
                 <-> forall m, In m (Models.FAST_MODELS AI_Model) ->
                               Models.model_id m <> id).
Proof.
  assert (Hdet : forall m, In m (Models.FAST_MODELS AI_Model) ->
                           Models.fastModelOf (Models.model_id m) = Some m).
  { unfold Models.FAST_MODELS, Models.getFastModels. intros m Hin.
    apply list_elem_of_In, list_elem_of_omap in Hin as (key & _ & Hm).
    destruct (fastModelOf_spec key m Hm) as (-> & _). assumption. }
  unfold Models.getModelById. split; [|split].
  - intros m Hin.
    destruct (List.find _ (Models.FAST_MODELS AI_Model)) as [m'|] eqn:E.
    + apply find_some in E as [Hin' E]. apply String.eqb_eq in E.
      pose proof (Hdet m' Hin') as H'. rewrite E, (Hdet m Hin) in H'. now symmetry.
    + apply (find_none _ _ E) in Hin. now rewrite String.eqb_refl in Hin.
  - intros id m E. apply find_some in E as [Hin E]. apply String.eqb_eq in E. auto.
  - intros id. split.
    + intros E m Hin. apply (find_none _ _ E) in Hin. now apply String.eqb_neq.
    + intros Hno. destruct (List.find _ _) as [m|] eqn:E; [|reflexivity].
      apply find_some in E as [Hin E]. apply String.eqb_eq in E.
      now apply Hno in Hin.
Qed.
